(** * dungeonsheets: classes, subclasses, features and spells

    A shallow embedding of
      - dungeonsheets/spells/spells.py      (Spell)
      - dungeonsheets/features/features.py  (Feature, FeatureSelector)
      - dungeonsheets/classes/classes.py    (SubClass, CharClass)
    and the properties of the composition mechanism proved about it.

    Conventions of the embedding.
      - Python [str] is [string]; the text is taken to be ASCII, so that
        [str.lower] maps 'A'..'Z' to 'a'..'z' and leaves every other
        character alone.
      - Python [int] is [Z].
      - A class (a type object holding declared attributes) and an instance
        are different records where the source instantiates; a [dict] is a
        [gmap]; a [defaultdict(list)] is a [gmap] read with default [[]].
      - An exception is a value of [PyExc]; code that can raise returns a
        [PyResult]. *)

From Stdlib Require Import ZArith Ascii String List Bool Lia.
From stdpp Require Import base option list gmap strings fin_maps.

Local Open Scope Z_scope.
Local Open Scope string_scope.
Local Open Scope list_scope.

Set Warnings "-register-all".

(** ** Python strings *)

Module PyStr.

(** [str.lower] on an ASCII character. *)
Definition lower_ascii (c : ascii) : ascii :=
  let n := N_of_ascii c in
  if (65 <=? n)%N && (n <=? 90)%N then ascii_of_N (n + 32) else c.

(** [s.lower()] *)
Fixpoint lower (s : string) : string :=
  match s with
  | EmptyString => EmptyString
  | String c rest => String (lower_ascii c) (lower rest)
  end.

(** [hay.startswith(needle)] *)
Fixpoint startswith (needle hay : string) : bool :=
  match needle, hay with
  | EmptyString, _ => true
  | String _ _, EmptyString => false
  | String a n', String b h' => Ascii.eqb a b && startswith n' h'
  end.

(** [needle in hay], the substring test of Python strings. *)
Fixpoint contains (needle hay : string) : bool :=
  startswith needle hay ||
  match hay with
  | EmptyString => false
  | String _ h' => contains needle h'
  end.

(** [bool(s)]: a string is truthy when it is not empty. *)
Definition truthy (s : string) : bool :=
  match s with EmptyString => false | _ => true end.

End PyStr.

(** ** Exceptions *)

Inductive PyExc : Type :=
| AttributeError
| KeyError
| IndexError
| TypeError.

Inductive PyResult (A : Type) : Type :=
| Ok (a : A)
| Raise (e : PyExc).
Arguments Ok {A} a.
Arguments Raise {A} e.

(** ** spells.py *)

(** class Spell.  The class has no [__init__]: an instance [S()] starts with
    exactly the attribute values its class declares, so one record serves for
    the declared class and for its instances.  The defaults of the base class
    are [default_Spell]. *)
Record Spell : Type := {
  spell_level : Z;
  spell_name : string;
  casting_time : string;
  casting_range : string;
  components : list string;
  materials : string;
  duration : string;
  ritual : bool;
  _concentration : bool;
  magic_school : string;
  spell_classes : list string
}.

Definition default_Spell : Spell := {|
  spell_level := 0;
  spell_name := "Unknown spell";
  casting_time := "1 action";
  casting_range := "60 ft";
  components := [];
  materials := "";
  duration := "instantaneous";
  ritual := false;
  _concentration := false;
  magic_school := "";
  spell_classes := []
|}.

(** [S()] for a spell class [S]. *)
Definition Spell_instantiate (S : Spell) : Spell := S.

(** Spell.__eq__ *)
Definition Spell_eq (self other : Spell) : bool :=
  String.eqb (spell_name self) (spell_name other)
  && Z.eqb (spell_level self) (spell_level other).

(** Spell.concentration (the property getter) *)
Definition concentration (self : Spell) : bool :=
  PyStr.contains "concentration" (PyStr.lower (duration self))
  || _concentration self.

(** Spell.concentration (the property setter) *)
Definition set_concentration (self : Spell) (val : bool) : Spell := {|
  spell_level := spell_level self;
  spell_name := spell_name self;
  casting_time := casting_time self;
  casting_range := casting_range self;
  components := components self;
  materials := materials self;
  duration := duration self;
  ritual := ritual self;
  _concentration := val;
  magic_school := magic_school self;
  spell_classes := spell_classes self
|}.

(** Spell.special_material *)
Definition special_material (self : Spell) : bool :=
  PyStr.contains "worth" (PyStr.lower (materials self)).

(** ** features.py *)

(** A class derived from [Feature], as a type object: either a plain feature
    class with its declared attributes, or a class derived from
    [FeatureSelector] with its [options] dict (lowercase option name to
    feature class). *)
Inductive FeatureClass : Type :=
| FeatureCls (name source : string) (doc : option string)
             (needs_impl : bool) (known prepared : list Spell)
| SelectorCls (name source : string) (doc : option string)
              (options : gmap string FeatureClass).

(** Modelled from the spec: the Character collaborator (class [Character]
    of dungeonsheets.character, which the three modules only import for
    typing), "an owner reference capable of holding arbitrary named
    attributes and answering [has_feature(feature_type) -> bool]".  The
    attributes set on it are recorded in the [World] below. *)
Record Character : Type := {
  has_feature : FeatureClass -> bool
}.

(** [Optional[Character]] *)
Definition PyOwner : Type := option Character.

(** An instance of [Feature]. *)
Record Feature : Type := {
  feat_name : string;
  feat_source : string;
  feat_doc : option string;
  feat_owner : PyOwner;
  feat_spells_known : list Spell;
  feat_spells_prepared : list Spell;
  needs_implementation : bool
}.

(** Feature.__eq__ *)
Definition Feature_eq (self other : Feature) : bool :=
  String.eqb (feat_name self) (feat_name other)
  && String.eqb (feat_source self) (feat_source other).

(** [new_feat.source = src] *)
Definition set_source (f : Feature) (src : string) : Feature := {|
  feat_name := feat_name f;
  feat_source := src;
  feat_doc := feat_doc f;
  feat_owner := feat_owner f;
  feat_spells_known := feat_spells_known f;
  feat_spells_prepared := feat_spells_prepared f;
  needs_implementation := needs_implementation f
|}.

(** FeatureSelector.__new__, lines 83-87: [Feature.__new__(Feature, ...)]
    followed by the four assignments.  [Feature.__init__] does not run on it,
    so its owner and spell lists are the defaults of class [Feature]. *)
Definition placeholder (name source : string) (doc : option string) : Feature := {|
  feat_name := name;
  feat_source := source;
  feat_doc := doc;
  feat_owner := None;
  feat_spells_known := [];
  feat_spells_prepared := [];
  needs_implementation := true
|}.

(** [feat_class(owner=owner)]: Feature.__init__ for a plain feature class;
    for a selector class FeatureSelector.__new__ runs with its default
    [feature_choices=[]], whose loop body never executes. *)
Definition FeatureClass_call (feat_class : FeatureClass) (owner : PyOwner) : Feature :=
  match feat_class with
  | FeatureCls name source doc needs_impl known prepared => {|
      feat_name := name;
      feat_source := source;
      feat_doc := doc;
      feat_owner := owner;
      feat_spells_known := map Spell_instantiate known;
      feat_spells_prepared := map Spell_instantiate prepared;
      needs_implementation := needs_impl
    |}
  | SelectorCls name source doc _ => placeholder name source doc
  end.

(** FeatureSelector.__new__, the loop of lines 88-94, with [new_feat] the
    value of the variable on entry. *)
Fixpoint select_loop (options : gmap string FeatureClass) (source : string)
    (owner : PyOwner) (feature_choices : list string) (new_feat : Feature)
    : PyResult Feature :=
  match feature_choices with
  | [] => Ok new_feat
  | selection :: rest =>
      match options !! PyStr.lower selection with
      | Some feat_class =>
          match owner with
          | None => Raise AttributeError
          | Some o =>
              if has_feature o feat_class
              then select_loop options source owner rest new_feat
              else select_loop options source owner rest
                     (set_source (FeatureClass_call feat_class owner) source)
          end
      | None => select_loop options source owner rest new_feat
      end
  end.

(** FeatureSelector.__new__ *)
Definition FeatureSelector_new (name source : string) (doc : option string)
    (options : gmap string FeatureClass) (owner : PyOwner)
    (feature_choices : list string) : PyResult Feature :=
  select_loop options source owner feature_choices (placeholder name source doc).

(** The reading of selector resolution in which the scan stops at the first
    choice that names an option the owner does not hold yet. *)
Fixpoint first_match_resolution (options : gmap string FeatureClass)
    (source : string) (o : Character) (feature_choices : list string)
    (fallback : Feature) : Feature :=
  match feature_choices with
  | [] => fallback
  | selection :: rest =>
      match options !! PyStr.lower selection with
      | Some feat_class =>
          if has_feature o feat_class
          then first_match_resolution options source o rest fallback
          else set_source (FeatureClass_call feat_class (Some o)) source
      | None => first_match_resolution options source o rest fallback
      end
  end.

(** A choice string that names an option the owner does not hold yet. *)
Definition grants (options : gmap string FeatureClass) (o : Character)
    (selection : string) : bool :=
  match options !! PyStr.lower selection with
  | Some feat_class => negb (has_feature o feat_class)
  | None => false
  end.

(** ** Python values used by classes.py *)

(** The values the attribute [spellcasting_ability] takes: [None] (the
    declared default), a [bool] (SubClass annotates it [Optional[bool]]) or a
    [str] (the name of an ability). *)
Inductive PyValue : Type :=
| PyNone
| PyBool (b : bool)
| PyStr (s : string).

(** [bool(v)] *)
Definition truthy (v : PyValue) : bool :=
  match v with
  | PyNone => false
  | PyBool b => b
  | PyStr s => PyStr.truthy s
  end.

(** [a or b] *)
Definition py_or (a b : PyValue) : PyValue := if truthy a then a else b.

(** [v is not None] *)
Definition is_not_None (v : PyValue) : bool :=
  match v with PyNone => false | _ => true end.

(** Modelled from the spec: the shape of a spell-slot table (the concrete
    classes of the rule catalogue declare it; classes.py only reads
    [table[level][spell_level]]): a dict from class level to a row, the row a
    tuple of slot counts indexed by spell level. *)
Abbreviation SlotTable := (gmap Z (list Z)).

(** [bool(t)] for an optional dict: [None] and the empty dict are falsy. *)
Definition table_truthy (t : option SlotTable) : bool :=
  match t with
  | None => false
  | Some d => negb (bool_decide (d = ∅))
  end.

(** [a or b] on optional dicts *)
Definition table_or (a b : option SlotTable) : option SlotTable :=
  if table_truthy a then a else b.

(** [d[k]] on a dict *)
Definition dict_getitem {V : Type} (d : gmap Z V) (k : Z) : PyResult V :=
  match d !! k with
  | Some v => Ok v
  | None => Raise KeyError
  end.

(** [t[i]] on a tuple: a negative index counts from the end. *)
Definition tuple_getitem {V : Type} (t : list V) (i : Z) : PyResult V :=
  let n := Z.of_nat (length t) in
  let j := if (i <? 0)%Z then (i + n)%Z else i in
  if (0 <=? j)%Z && (j <? n)%Z
  then match t !! Z.to_nat j with
       | Some v => Ok v
       | None => Raise IndexError
       end
  else Raise IndexError.

(** The list a computation returned, [[]] when it raised. *)
Definition returned {V : Type} (r : PyResult (list V)) : list V :=
  match r with
  | Ok l => l
  | Raise _ => []
  end.

(** [range(start, stop)] *)
Definition py_range (start stop : Z) : list Z := seqZ start (stop - start).

(** [d[k]] on a [defaultdict(list)] *)
Definition defaultdict_get {V : Type} (d : gmap Z (list V)) (k : Z) : list V :=
  default [] (d !! k).

(** ** classes.py *)

(** An element of a declared [features_by_level] list: a class derived from
    [Feature], or some other class (which both [issubclass] tests of the
    instantiation loops reject). *)
Inductive ClassEntry : Type :=
| DeclFeature (f : FeatureClass)
| DeclOther.

(** The body of the loops at lines 72-76 and 109-113, with [fs] the list
    accumulated so far. *)
Fixpoint instantiate_features (declared : list ClassEntry) (owner : PyOwner)
    (feature_choices : list string) (fs : list Feature) : PyResult (list Feature) :=
  match declared with
  | [] => Ok fs
  | DeclFeature (SelectorCls name source doc options) :: rest =>
      match FeatureSelector_new name source doc options owner feature_choices with
      | Ok x => instantiate_features rest owner feature_choices (fs ++ [x])
      | Raise e => Raise e
      end
  | DeclFeature f :: rest =>
      instantiate_features rest owner feature_choices (fs ++ [FeatureClass_call f owner])
  | DeclOther :: rest =>
      instantiate_features rest owner feature_choices fs
  end.

Module SubClass.

(** A class derived from [SubClass], with its declared attributes.  Weapon
    proficiencies are weapon classes in the source; they are named here. *)
Record decl : Type := {
  name : string;
  doc : option string;
  features_by_level : gmap Z (list ClassEntry);
  weapon_proficiencies : list string;
  _proficiencies_text : list string;
  spellcasting_ability : PyValue;
  spell_slots_by_level : option SlotTable;
  spells_known : list Spell;
  spells_prepared : list Spell
}.

(** An instance: its class and the attributes [__init__] sets. *)
Record t : Type := {
  class : decl;
  owner : PyOwner;
  instance_doc : option string
}.

(** [SubClass.__doc__] *)
Definition generic_doc : string :=
"
    A generic subclass object. Add more detail in the __doc__ attribute.
    ".

(** SubClass.__init__ *)
Definition init (sc : decl) (owner : PyOwner) : t := {|
  class := sc;
  owner := owner;
  instance_doc :=
    match doc sc with
    | Some d => if PyStr.truthy d then Some d else Some generic_doc
    | None => Some generic_doc
    end
|}.

(** SubClass.__str__ *)
Definition str (self : t) : string := name (class self).

End SubClass.

(** The effects of constructing a class that reach outside the instance: the
    warnings emitted, and the attribute names bound on the owner. *)
Record World : Type := {
  warnings : list string;
  owner_attributes : list string
}.

Definition empty_World : World := {| warnings := []; owner_attributes := [] |}.

(** Computations that read and extend the [World] and may raise. *)
Definition M (A : Type) : Type := World -> PyResult (A * World).

Definition M_ret {A : Type} (a : A) : M A := fun w => Ok (a, w).

Definition M_bind {A B : Type} (m : M A) (k : A -> M B) : M B :=
  fun w => match m w with
           | Ok (a, w') => k a w'
           | Raise e => Raise e
           end.

Definition M_lift {A : Type} (r : PyResult A) : M A :=
  fun w => match r with
           | Ok a => Ok (a, w)
           | Raise e => Raise e
           end.

Definition M_raise {A : Type} (e : PyExc) : M A := fun _ => Raise e.

Notation "x <- m ;; k" := (M_bind m (fun x => k))
  (at level 100, m at next level, right associativity).

(** [warnings.warn(msg)] *)
Definition warn (msg : string) : M unit :=
  fun w => Ok (tt, {| warnings := warnings w ++ [msg];
                      owner_attributes := owner_attributes w |}).

(** [setattr(owner, attr, value)]: [None] takes no attribute. *)
Definition setattr_owner (owner : PyOwner) (attr : string) : M unit :=
  fun w => match owner with
           | None => Raise AttributeError
           | Some _ => Ok (tt, {| warnings := warnings w;
                                  owner_attributes := owner_attributes w ++ [attr] |})
           end.

Module CharClass.

(** A class derived from [CharClass], with the declared attributes the
    methods of the class read.  (The attributes no method reads, such as
    [hit_dice_faces] or [languages], are left out.) *)
Record decl : Type := {
  cls_name : string;
  cls_subclass_select_level : Z;
  cls_weapon_proficiencies : list string;
  cls__proficiencies_text : list string;
  cls_multiclass_weapon_proficiencies : list string;
  cls__multiclass_proficiencies_text : list string;
  cls_spellcasting_ability : PyValue;
  cls_spell_slots_by_level : option SlotTable;
  cls_spells_known : list Spell;
  cls_spells_prepared : list Spell;
  cls_subclasses_available : list SubClass.decl;
  cls_features_by_level : gmap Z (list ClassEntry)
}.

(** An instance, with the value each attribute has when read through
    [self].  [features_by_level] is the [defaultdict(list)] line 68 creates.
    The last two fields are the instance attributes named [select_subclass]
    and [apply_subclass], which exist only once line 79 has set them and
    which then hide the methods of those names; the values the embedding
    can put there ([PyValue]) are not callable. *)
Record t : Type := {
  level : Z;
  owner : PyOwner;
  name : string;
  subclass_select_level : Z;
  weapon_proficiencies : list string;
  _proficiencies_text : list string;
  multiclass_weapon_proficiencies : list string;
  _multiclass_proficiencies_text : list string;
  spellcasting_ability : PyValue;
  spell_slots_by_level : option SlotTable;
  spells_known : list Spell;
  spells_prepared : list Spell;
  subclass : option SubClass.t;
  subclasses_available : list SubClass.decl;
  features_by_level : gmap Z (list Feature);
  select_subclass_attribute : option PyValue;
  apply_subclass_attribute : option PyValue
}.

(** The instance before [__init__] has assigned anything: every attribute
    reads the value its class declares ([level] is 1 and [subclass] is [None]
    in the base class; [owner] and the per-instance [features_by_level] are
    assigned before they are first read). *)
Definition new (cls : decl) : t := {|
  level := 1;
  owner := None;
  name := cls_name cls;
  subclass_select_level := cls_subclass_select_level cls;
  weapon_proficiencies := cls_weapon_proficiencies cls;
  _proficiencies_text := cls__proficiencies_text cls;
  multiclass_weapon_proficiencies := cls_multiclass_weapon_proficiencies cls;
  _multiclass_proficiencies_text := cls__multiclass_proficiencies_text cls;
  spellcasting_ability := cls_spellcasting_ability cls;
  spell_slots_by_level := cls_spell_slots_by_level cls;
  spells_known := cls_spells_known cls;
  spells_prepared := cls_spells_prepared cls;
  subclass := None;
  subclasses_available := cls_subclasses_available cls;
  features_by_level := ∅;
  select_subclass_attribute := None;
  apply_subclass_attribute := None
|}.

(** [self.attr = v], one definition per attribute assigned in the source. *)
Definition set_level (self : t) (v : Z) : t := {|
  level := v;
  owner := owner self;
  name := name self;
  subclass_select_level := subclass_select_level self;
  weapon_proficiencies := weapon_proficiencies self;
  _proficiencies_text := _proficiencies_text self;
  multiclass_weapon_proficiencies := multiclass_weapon_proficiencies self;
  _multiclass_proficiencies_text := _multiclass_proficiencies_text self;
  spellcasting_ability := spellcasting_ability self;
  spell_slots_by_level := spell_slots_by_level self;
  spells_known := spells_known self;
  spells_prepared := spells_prepared self;
  subclass := subclass self;
  subclasses_available := subclasses_available self;
  features_by_level := features_by_level self;
  select_subclass_attribute := select_subclass_attribute self;
  apply_subclass_attribute := apply_subclass_attribute self
|}.

Definition set_owner (self : t) (v : PyOwner) : t := {|
  level := level self;
  owner := v;
  name := name self;
  subclass_select_level := subclass_select_level self;
  weapon_proficiencies := weapon_proficiencies self;
  _proficiencies_text := _proficiencies_text self;
  multiclass_weapon_proficiencies := multiclass_weapon_proficiencies self;
  _multiclass_proficiencies_text := _multiclass_proficiencies_text self;
  spellcasting_ability := spellcasting_ability self;
  spell_slots_by_level := spell_slots_by_level self;
  spells_known := spells_known self;
  spells_prepared := spells_prepared self;
  subclass := subclass self;
  subclasses_available := subclasses_available self;
  features_by_level := features_by_level self;
  select_subclass_attribute := select_subclass_attribute self;
  apply_subclass_attribute := apply_subclass_attribute self
|}.

Definition set_name (self : t) (v : string) : t := {|
  level := level self;
  owner := owner self;
  name := v;
  subclass_select_level := subclass_select_level self;
  weapon_proficiencies := weapon_proficiencies self;
  _proficiencies_text := _proficiencies_text self;
  multiclass_weapon_proficiencies := multiclass_weapon_proficiencies self;
  _multiclass_proficiencies_text := _multiclass_proficiencies_text self;
  spellcasting_ability := spellcasting_ability self;
  spell_slots_by_level := spell_slots_by_level self;
  spells_known := spells_known self;
  spells_prepared := spells_prepared self;
  subclass := subclass self;
  subclasses_available := subclasses_available self;
  features_by_level := features_by_level self;
  select_subclass_attribute := select_subclass_attribute self;
  apply_subclass_attribute := apply_subclass_attribute self
|}.

Definition set_subclass_select_level (self : t) (v : Z) : t := {|
  level := level self;
  owner := owner self;
  name := name self;
  subclass_select_level := v;
  weapon_proficiencies := weapon_proficiencies self;
  _proficiencies_text := _proficiencies_text self;
  multiclass_weapon_proficiencies := multiclass_weapon_proficiencies self;
  _multiclass_proficiencies_text := _multiclass_proficiencies_text self;
  spellcasting_ability := spellcasting_ability self;
  spell_slots_by_level := spell_slots_by_level self;
  spells_known := spells_known self;
  spells_prepared := spells_prepared self;
  subclass := subclass self;
  subclasses_available := subclasses_available self;
  features_by_level := features_by_level self;
  select_subclass_attribute := select_subclass_attribute self;
  apply_subclass_attribute := apply_subclass_attribute self
|}.

Definition set_weapon_proficiencies (self : t) (v : list string) : t := {|
  level := level self;
  owner := owner self;
  name := name self;
  subclass_select_level := subclass_select_level self;
  weapon_proficiencies := v;
  _proficiencies_text := _proficiencies_text self;
  multiclass_weapon_proficiencies := multiclass_weapon_proficiencies self;
  _multiclass_proficiencies_text := _multiclass_proficiencies_text self;
  spellcasting_ability := spellcasting_ability self;
  spell_slots_by_level := spell_slots_by_level self;
  spells_known := spells_known self;
  spells_prepared := spells_prepared self;
  subclass := subclass self;
  subclasses_available := subclasses_available self;
  features_by_level := features_by_level self;
  select_subclass_attribute := select_subclass_attribute self;
  apply_subclass_attribute := apply_subclass_attribute self
|}.

Definition set__proficiencies_text (self : t) (v : list string) : t := {|
  level := level self;
  owner := owner self;
  name := name self;
  subclass_select_level := subclass_select_level self;
  weapon_proficiencies := weapon_proficiencies self;
  _proficiencies_text := v;
  multiclass_weapon_proficiencies := multiclass_weapon_proficiencies self;
  _multiclass_proficiencies_text := _multiclass_proficiencies_text self;
  spellcasting_ability := spellcasting_ability self;
  spell_slots_by_level := spell_slots_by_level self;
  spells_known := spells_known self;
  spells_prepared := spells_prepared self;
  subclass := subclass self;
  subclasses_available := subclasses_available self;
  features_by_level := features_by_level self;
  select_subclass_attribute := select_subclass_attribute self;
  apply_subclass_attribute := apply_subclass_attribute self
|}.

Definition set_multiclass_weapon_proficiencies (self : t) (v : list string) : t := {|
  level := level self;
  owner := owner self;
  name := name self;
  subclass_select_level := subclass_select_level self;
  weapon_proficiencies := weapon_proficiencies self;
  _proficiencies_text := _proficiencies_text self;
  multiclass_weapon_proficiencies := v;
  _multiclass_proficiencies_text := _multiclass_proficiencies_text self;
  spellcasting_ability := spellcasting_ability self;
  spell_slots_by_level := spell_slots_by_level self;
  spells_known := spells_known self;
  spells_prepared := spells_prepared self;
  subclass := subclass self;
  subclasses_available := subclasses_available self;
  features_by_level := features_by_level self;
  select_subclass_attribute := select_subclass_attribute self;
  apply_subclass_attribute := apply_subclass_attribute self
|}.

Definition set__multiclass_proficiencies_text (self : t) (v : list string) : t := {|
  level := level self;
  owner := owner self;
  name := name self;
  subclass_select_level := subclass_select_level self;
  weapon_proficiencies := weapon_proficiencies self;
  _proficiencies_text := _proficiencies_text self;
  multiclass_weapon_proficiencies := multiclass_weapon_proficiencies self;
  _multiclass_proficiencies_text := v;
  spellcasting_ability := spellcasting_ability self;
  spell_slots_by_level := spell_slots_by_level self;
  spells_known := spells_known self;
  spells_prepared := spells_prepared self;
  subclass := subclass self;
  subclasses_available := subclasses_available self;
  features_by_level := features_by_level self;
  select_subclass_attribute := select_subclass_attribute self;
  apply_subclass_attribute := apply_subclass_attribute self
|}.

Definition set_spellcasting_ability (self : t) (v : PyValue) : t := {|
  level := level self;
  owner := owner self;
  name := name self;
  subclass_select_level := subclass_select_level self;
  weapon_proficiencies := weapon_proficiencies self;
  _proficiencies_text := _proficiencies_text self;
  multiclass_weapon_proficiencies := multiclass_weapon_proficiencies self;
  _multiclass_proficiencies_text := _multiclass_proficiencies_text self;
  spellcasting_ability := v;
  spell_slots_by_level := spell_slots_by_level self;
  spells_known := spells_known self;
  spells_prepared := spells_prepared self;
  subclass := subclass self;
  subclasses_available := subclasses_available self;
  features_by_level := features_by_level self;
  select_subclass_attribute := select_subclass_attribute self;
  apply_subclass_attribute := apply_subclass_attribute self
|}.

Definition set_spell_slots_by_level (self : t) (v : option SlotTable) : t := {|
  level := level self;
  owner := owner self;
  name := name self;
  subclass_select_level := subclass_select_level self;
  weapon_proficiencies := weapon_proficiencies self;
  _proficiencies_text := _proficiencies_text self;
  multiclass_weapon_proficiencies := multiclass_weapon_proficiencies self;
  _multiclass_proficiencies_text := _multiclass_proficiencies_text self;
  spellcasting_ability := spellcasting_ability self;
  spell_slots_by_level := v;
  spells_known := spells_known self;
  spells_prepared := spells_prepared self;
  subclass := subclass self;
  subclasses_available := subclasses_available self;
  features_by_level := features_by_level self;
  select_subclass_attribute := select_subclass_attribute self;
  apply_subclass_attribute := apply_subclass_attribute self
|}.

Definition set_spells_known (self : t) (v : list Spell) : t := {|
  level := level self;
  owner := owner self;
  name := name self;
  subclass_select_level := subclass_select_level self;
  weapon_proficiencies := weapon_proficiencies self;
  _proficiencies_text := _proficiencies_text self;
  multiclass_weapon_proficiencies := multiclass_weapon_proficiencies self;
  _multiclass_proficiencies_text := _multiclass_proficiencies_text self;
  spellcasting_ability := spellcasting_ability self;
  spell_slots_by_level := spell_slots_by_level self;
  spells_known := v;
  spells_prepared := spells_prepared self;
  subclass := subclass self;
  subclasses_available := subclasses_available self;
  features_by_level := features_by_level self;
  select_subclass_attribute := select_subclass_attribute self;
  apply_subclass_attribute := apply_subclass_attribute self
|}.

Definition set_spells_prepared (self : t) (v : list Spell) : t := {|
  level := level self;
  owner := owner self;
  name := name self;
  subclass_select_level := subclass_select_level self;
  weapon_proficiencies := weapon_proficiencies self;
  _proficiencies_text := _proficiencies_text self;
  multiclass_weapon_proficiencies := multiclass_weapon_proficiencies self;
  _multiclass_proficiencies_text := _multiclass_proficiencies_text self;
  spellcasting_ability := spellcasting_ability self;
  spell_slots_by_level := spell_slots_by_level self;
  spells_known := spells_known self;
  spells_prepared := v;
  subclass := subclass self;
  subclasses_available := subclasses_available self;
  features_by_level := features_by_level self;
  select_subclass_attribute := select_subclass_attribute self;
  apply_subclass_attribute := apply_subclass_attribute self
|}.

Definition set_subclass (self : t) (v : option SubClass.t) : t := {|
  level := level self;
  owner := owner self;
  name := name self;
  subclass_select_level := subclass_select_level self;
  weapon_proficiencies := weapon_proficiencies self;
  _proficiencies_text := _proficiencies_text self;
  multiclass_weapon_proficiencies := multiclass_weapon_proficiencies self;
  _multiclass_proficiencies_text := _multiclass_proficiencies_text self;
  spellcasting_ability := spellcasting_ability self;
  spell_slots_by_level := spell_slots_by_level self;
  spells_known := spells_known self;
  spells_prepared := spells_prepared self;
  subclass := v;
  subclasses_available := subclasses_available self;
  features_by_level := features_by_level self;
  select_subclass_attribute := select_subclass_attribute self;
  apply_subclass_attribute := apply_subclass_attribute self
|}.

Definition set_subclasses_available (self : t) (v : list SubClass.decl) : t := {|
  level := level self;
  owner := owner self;
  name := name self;
  subclass_select_level := subclass_select_level self;
  weapon_proficiencies := weapon_proficiencies self;
  _proficiencies_text := _proficiencies_text self;
  multiclass_weapon_proficiencies := multiclass_weapon_proficiencies self;
  _multiclass_proficiencies_text := _multiclass_proficiencies_text self;
  spellcasting_ability := spellcasting_ability self;
  spell_slots_by_level := spell_slots_by_level self;
  spells_known := spells_known self;
  spells_prepared := spells_prepared self;
  subclass := subclass self;
  subclasses_available := v;
  features_by_level := features_by_level self;
  select_subclass_attribute := select_subclass_attribute self;
  apply_subclass_attribute := apply_subclass_attribute self
|}.

Definition set_features_by_level (self : t) (v : gmap Z (list Feature)) : t := {|
  level := level self;
  owner := owner self;
  name := name self;
  subclass_select_level := subclass_select_level self;
  weapon_proficiencies := weapon_proficiencies self;
  _proficiencies_text := _proficiencies_text self;
  multiclass_weapon_proficiencies := multiclass_weapon_proficiencies self;
  _multiclass_proficiencies_text := _multiclass_proficiencies_text self;
  spellcasting_ability := spellcasting_ability self;
  spell_slots_by_level := spell_slots_by_level self;
  spells_known := spells_known self;
  spells_prepared := spells_prepared self;
  subclass := subclass self;
  subclasses_available := subclasses_available self;
  features_by_level := v;
  select_subclass_attribute := select_subclass_attribute self;
  apply_subclass_attribute := apply_subclass_attribute self
|}.

Definition set_select_subclass_attribute (self : t) (v : option PyValue) : t := {|
  level := level self;
  owner := owner self;
  name := name self;
  subclass_select_level := subclass_select_level self;
  weapon_proficiencies := weapon_proficiencies self;
  _proficiencies_text := _proficiencies_text self;
  multiclass_weapon_proficiencies := multiclass_weapon_proficiencies self;
  _multiclass_proficiencies_text := _multiclass_proficiencies_text self;
  spellcasting_ability := spellcasting_ability self;
  spell_slots_by_level := spell_slots_by_level self;
  spells_known := spells_known self;
  spells_prepared := spells_prepared self;
  subclass := subclass self;
  subclasses_available := subclasses_available self;
  features_by_level := features_by_level self;
  select_subclass_attribute := v;
  apply_subclass_attribute := apply_subclass_attribute self
|}.

Definition set_apply_subclass_attribute (self : t) (v : option PyValue) : t := {|
  level := level self;
  owner := owner self;
  name := name self;
  subclass_select_level := subclass_select_level self;
  weapon_proficiencies := weapon_proficiencies self;
  _proficiencies_text := _proficiencies_text self;
  multiclass_weapon_proficiencies := multiclass_weapon_proficiencies self;
  _multiclass_proficiencies_text := _multiclass_proficiencies_text self;
  spellcasting_ability := spellcasting_ability self;
  spell_slots_by_level := spell_slots_by_level self;
  spells_known := spells_known self;
  spells_prepared := spells_prepared self;
  subclass := subclass self;
  subclasses_available := subclasses_available self;
  features_by_level := features_by_level self;
  select_subclass_attribute := select_subclass_attribute self;
  apply_subclass_attribute := v
|}.

(** The names a keyword of [**params] can shadow with consequences for the
    code embedded here: the attributes and methods the class reads through
    [self], the properties, and the named parameters of [__init__]. *)
Definition read_names : list string :=
  ["level"; "owner"; "subclass"; "feature_choices"; "self"; "name";
   "subclass_select_level"; "weapon_proficiencies"; "_proficiencies_text";
   "multiclass_weapon_proficiencies"; "_multiclass_proficiencies_text";
   "spellcasting_ability"; "spell_slots_by_level"; "spells_known";
   "spells_prepared"; "subclasses_available"; "features_by_level";
   "features"; "is_spellcaster"; "select_subclass"; "apply_subclass";
   "spell_slots"].

(** A key that names nothing the class reads: none of [read_names] and no
    special ("dunder") name. *)
Definition is_unread (k : string) : bool :=
  negb (existsb (String.eqb k) read_names) && negb (PyStr.startswith "__" k).

(** One item of [**params].  The keys [level], [owner], [subclass] and
    [feature_choices] bind to the named parameters of [__init__] and cannot
    occur.  A data attribute comes with a value of the type the class
    declares for it; for [features_by_level] that is a [defaultdict(list)]
    (a mapping of another kind, such as a plain dict, which raises [KeyError]
    on a level it lacks, is not represented).  [features] and
    [is_spellcaster] are properties without a setter.  [select_subclass] and
    [apply_subclass] come with a value that is not callable (a callable would
    run code of the caller, which is not represented).  [Param_other] is a
    key that names nothing the class reads. *)
Inductive Param : Type :=
| Param_name (v : string)
| Param_subclass_select_level (v : Z)
| Param_weapon_proficiencies (v : list string)
| Param__proficiencies_text (v : list string)
| Param_multiclass_weapon_proficiencies (v : list string)
| Param__multiclass_proficiencies_text (v : list string)
| Param_spellcasting_ability (v : PyValue)
| Param_spell_slots_by_level (v : option SlotTable)
| Param_spells_known (v : list Spell)
| Param_spells_prepared (v : list Spell)
| Param_subclasses_available (v : list SubClass.decl)
| Param_features_by_level (v : gmap Z (list Feature))
| Param_features
| Param_is_spellcaster
| Param_select_subclass (v : PyValue)
| Param_apply_subclass (v : PyValue)
| Param_other (k : string) (unread : is_unread k = true).

(** [setattr(self, k, v)] *)
Definition setattr (self : t) (p : Param) : PyResult t :=
  match p with
  | Param_name v => Ok (set_name self v)
  | Param_subclass_select_level v => Ok (set_subclass_select_level self v)
  | Param_weapon_proficiencies v => Ok (set_weapon_proficiencies self v)
  | Param__proficiencies_text v => Ok (set__proficiencies_text self v)
  | Param_multiclass_weapon_proficiencies v =>
      Ok (set_multiclass_weapon_proficiencies self v)
  | Param__multiclass_proficiencies_text v =>
      Ok (set__multiclass_proficiencies_text self v)
  | Param_spellcasting_ability v => Ok (set_spellcasting_ability self v)
  | Param_spell_slots_by_level v => Ok (set_spell_slots_by_level self v)
  | Param_spells_known v => Ok (set_spells_known self v)
  | Param_spells_prepared v => Ok (set_spells_prepared self v)
  | Param_subclasses_available v => Ok (set_subclasses_available self v)
  | Param_features_by_level v => Ok (set_features_by_level self v)
  | Param_features => Raise AttributeError
  | Param_is_spellcaster => Raise AttributeError
  | Param_select_subclass v => Ok (set_select_subclass_attribute self (Some v))
  | Param_apply_subclass v => Ok (set_apply_subclass_attribute self (Some v))
  | Param_other _ _ => Ok self
  end.

(** A key of [**params] that names a read-only property of the class. *)
Definition is_property (p : Param) : bool :=
  match p with
  | Param_features | Param_is_spellcaster => true
  | _ => false
  end.

(** A key of [**params] that replaces the per-instance [features_by_level]. *)
Definition is_features_by_level (p : Param) : bool :=
  match p with
  | Param_features_by_level _ => true
  | _ => false
  end.

(** A key of [**params] that names a method the constructor calls. *)
Definition is_method (p : Param) : bool :=
  match p with
  | Param_select_subclass _ | Param_apply_subclass _ => true
  | _ => false
  end.

(** The key [select_subclass] of [**params]. *)
Definition is_select_subclass (p : Param) : bool :=
  match p with
  | Param_select_subclass _ => true
  | _ => false
  end.

(** A keyword that line 79 stores without consequence for lines 84-86 and
    for the per-level lists: it names neither a read-only property, nor a
    method the constructor calls, nor [features_by_level]. *)
Definition is_plain (p : Param) : bool :=
  negb (is_property p) && negb (is_method p) && negb (is_features_by_level p).

(** __init__, lines 78-79 *)
Fixpoint apply_params (self : t) (params : list Param) : PyResult t :=
  match params with
  | [] => Ok self
  | p :: rest =>
      match setattr self p with
      | Ok self' => apply_params self' rest
      | Raise e => Raise e
      end
  end.

(** __init__, lines 70-77, over the levels still to visit. *)
Fixpoint init_features (cls : decl) (feature_choices : list string)
    (levels : list Z) (self : t) : PyResult t :=
  match levels with
  | [] => Ok self
  | i :: rest =>
      match instantiate_features (defaultdict_get (cls_features_by_level cls) i)
              (owner self) feature_choices [] with
      | Ok fs =>
          init_features cls feature_choices rest
            (set_features_by_level self (<[i := fs]> (features_by_level self)))
      | Raise e => Raise e
      end
  end.

(** select_subclass, lines 97-99 *)
Fixpoint find_subclass (subclass_str : string) (candidates : list SubClass.decl)
    : option SubClass.decl :=
  match candidates with
  | [] => None
  | sc :: rest =>
      if PyStr.contains (PyStr.lower subclass_str) (PyStr.lower (SubClass.name sc))
      then Some sc
      else find_subclass subclass_str rest
  end.

(** CharClass.select_subclass *)
Definition select_subclass (self : t) (subclass_str : option string)
    : M (option SubClass.t) :=
  match subclass_str with
  | None => M_ret None
  | Some s =>
      if String.eqb s "" || String.eqb s "None" || String.eqb s "none"
      then M_ret None
      else
        match find_subclass s (subclasses_available self) with
        | Some sc => M_ret (Some (SubClass.init sc (owner self)))
        | None =>
            _ <- warn ("Could not find subclass " ++ s ++ ".")%string ;;
            M_ret None
        end
  end.

(** apply_subclass, lines 107-114, over the levels still to visit. *)
Fixpoint extend_features (subcls : SubClass.t) (feature_choices : list string)
    (levels : list Z) (self : t) : PyResult t :=
  match levels with
  | [] => Ok self
  | i :: rest =>
      match instantiate_features
              (defaultdict_get (SubClass.features_by_level (SubClass.class subcls)) i)
              (owner self) feature_choices [] with
      | Ok fs =>
          extend_features subcls feature_choices rest
            (set_features_by_level self
               (<[i := defaultdict_get (features_by_level self) i ++ fs]>
                  (features_by_level self)))
      | Raise e => Raise e
      end
  end.

(** CharClass.apply_subclass *)
Definition apply_subclass (self : t) (feature_choices : list string) : PyResult t :=
  match subclass self with
  | None => Ok self
  | Some subcls =>
      match extend_features subcls feature_choices (py_range 1 21) self with
      | Raise e => Raise e
      | Ok self =>
          let sc := SubClass.class subcls in
          let self := set_weapon_proficiencies self
                        (weapon_proficiencies self ++ SubClass.weapon_proficiencies sc) in
          let self := set__proficiencies_text self
                        (_proficiencies_text self ++ SubClass._proficiencies_text sc) in
          let self := set_multiclass_weapon_proficiencies self
                        (multiclass_weapon_proficiencies self
                           ++ SubClass.weapon_proficiencies sc) in
          let self := set__multiclass_proficiencies_text self
                        (_multiclass_proficiencies_text self
                           ++ SubClass._proficiencies_text sc) in
          let self := set_spellcasting_ability self
                        (py_or (spellcasting_ability self)
                               (SubClass.spellcasting_ability sc)) in
          let self := set_spell_slots_by_level self
                        (table_or (spell_slots_by_level self)
                                  (SubClass.spell_slots_by_level sc)) in
          let self := set_spells_known self
                        (spells_known self
                           ++ map Spell_instantiate (SubClass.spells_known sc)) in
          let self := set_spells_prepared self
                        (spells_prepared self
                           ++ map Spell_instantiate (SubClass.spells_prepared sc)) in
          Ok self
      end
  end.

(** [self.select_subclass(subclass)], line 84.  The name is looked up on the
    instance first: an instance attribute of that name hides the method, and
    calling a value that is not callable raises [TypeError]. *)
Definition call_select_subclass (self : t) (subclass_str : option string)
    : M (option SubClass.t) :=
  match select_subclass_attribute self with
  | Some _ => M_raise TypeError
  | None => select_subclass self subclass_str
  end.

(** [self.apply_subclass(feature_choices=feature_choices)], line 86 *)
Definition call_apply_subclass (self : t) (feature_choices : list string) : M t :=
  match apply_subclass_attribute self with
  | Some _ => M_raise TypeError
  | None => M_lift (apply_subclass self feature_choices)
  end.

(** CharClass.__init__ *)
Definition init (cls : decl) (level : Z) (owner : PyOwner)
    (subclass : option string) (feature_choices : list string)
    (params : list Param) : M t :=
  let self := set_level (new cls) level in
  let self := set_owner self owner in
  _ <- setattr_owner (CharClass.owner self) (name self) ;;
  let self := set_features_by_level self ∅ in
  self <- M_lift (init_features cls feature_choices (py_range 1 21) self) ;;
  self <- M_lift (apply_params self params) ;;
  let self := set_spells_known self (map Spell_instantiate (cls_spells_known cls)) in
  let self := set_spells_prepared self (map Spell_instantiate (cls_spells_prepared cls)) in
  sc <- call_select_subclass self subclass ;;
  let self := set_subclass self sc in
  match CharClass.subclass self with
  | Some _ => call_apply_subclass self feature_choices
  | None => M_ret self
  end.

(** CharClass.features, the loop over the levels still to visit. *)
Fixpoint features_loop (self : t) (levels : list Z) (features : list Feature)
    : list Feature :=
  match levels with
  | [] => features
  | lvl :: rest =>
      features_loop self rest (features ++ defaultdict_get (features_by_level self) lvl)
  end.

(** CharClass.features *)
Definition features (self : t) : list Feature :=
  features_loop self (py_range 1 (level self + 1)) [].

(** CharClass.is_spellcaster *)
Definition is_spellcaster (self : t) : bool :=
  is_not_None (spellcasting_ability self).

(** CharClass.spell_slots *)
Definition spell_slots (self : t) (spell_level : Z) : PyResult Z :=
  match spell_slots_by_level self with
  | None => Ok 0
  | Some table =>
      match dict_getitem table (level self) with
      | Ok row => tuple_getitem row spell_level
      | Raise e => Raise e
      end
  end.

End CharClass.

(** ** Further methods of spells.py *)

(** Spell.__str__ *)
Definition Spell_str (self : Spell) : string :=
  let s := spell_name self in
  let requirements := components self in
  let indicators :=
    [("R", ritual self); ("C", concentration self); ("$", special_material self)] in
  let requirements :=
    requirements ++ map fst (List.filter (fun p => snd p) indicators) in
  match requirements with
  | [] => s
  | _ :: _ => (s ++ " (" ++ String.concat "/" requirements ++ ")")%string
  end.

(** Spell.component_string *)
Definition component_string (self : Spell) : string :=
  let s := String.concat ", " (components self) in
  if existsb (String.eqb "M") (components self)
  then (s ++ " (" ++ materials self ++ ")")%string
  else s.

(** ** Results of computations *)

(** Apply [f] to the value a computation returned; an exception passes. *)
Definition on_ok {A B : Type} (f : A -> B) (r : PyResult A) : PyResult B :=
  match r with
  | Ok a => Ok (f a)
  | Raise e => Raise e
  end.

(** The feature classes among the entries of a declared list, in order. *)
Definition declared_features (declared : list ClassEntry) : list FeatureClass :=
  omap (fun e => match e with DeclFeature f => Some f | DeclOther => None end)
       declared.

(** [f] is what lines 73-76 append for the feature class [fc] and an owner
    object: for a plain feature class the instance [Feature.__init__] sets
    up, attribute by attribute; for a selector class the feature its
    resolution against the choices returns. *)
Definition instantiates (o : Character) (feature_choices : list string)
    (fc : FeatureClass) (f : Feature) : Prop :=
  match fc with
  | FeatureCls name source doc needs_impl known prepared =>
      f = {| feat_name := name;
             feat_source := source;
             feat_doc := doc;
             feat_owner := Some o;
             feat_spells_known := map Spell_instantiate known;
             feat_spells_prepared := map Spell_instantiate prepared;
             needs_implementation := needs_impl |}
  | SelectorCls name source doc options =>
      FeatureSelector_new name source doc options (Some o) feature_choices = Ok f
  end.

(** A declared entry that is a class derived from [Feature]. *)
Definition is_feature_entry (e : ClassEntry) : bool :=
  match e with
  | DeclFeature _ => true
  | DeclOther => false
  end.

(** ** Sample rule data

    A cut-down Fighter in the shape of the concrete classes of the rule
    catalogue, used to run the definitions above. *)

Module Sample.

Definition Archery : FeatureClass :=
  FeatureCls "Fighting Style (Archery)" "Unknown" (Some "+2 to ranged attacks") false [] [].

Definition Defense : FeatureClass :=
  FeatureCls "Fighting Style (Defense)" "Unknown" (Some "+1 AC in armor") false [] [].

Definition fighting_style_options : gmap string FeatureClass :=
  <["archery" := Archery]> (<["defense" := Defense]> ∅).

Definition FightingStyle : FeatureClass :=
  SelectorCls "Fighting Style (Select One)" "Fighter" (Some "Select a style")
    fighting_style_options.

Definition SecondWind : FeatureClass :=
  FeatureCls "Second Wind" "Fighter" (Some "Regain hit points") false [] [].

Definition ActionSurge : FeatureClass :=
  FeatureCls "Action Surge" "Fighter" (Some "One additional action") false [] [].

Definition ImprovedCritical : FeatureClass :=
  FeatureCls "Improved Critical" "Fighter (Champion)" (Some "Critical on 19-20") false [] [].

Definition WeaponBond : FeatureClass :=
  FeatureCls "Weapon Bond" "Fighter (Eldritch Knight)" (Some "Bond with a weapon") false [] [].

Definition Shield : Spell := {|
  spell_level := 1;
  spell_name := "Shield";
  casting_time := "1 reaction";
  casting_range := "Self";
  components := ["V"; "S"];
  materials := "";
  duration := "1 round";
  ritual := false;
  _concentration := false;
  magic_school := "Abjuration";
  spell_classes := ["Sorcerer"; "Wizard"]
|}.

Definition Bless : Spell := {|
  spell_level := 1;
  spell_name := "Bless";
  casting_time := "1 action";
  casting_range := "30 feet";
  components := ["V"; "S"; "M"];
  materials := "A sprinkling of holy water";
  duration := "Concentration, up to 1 minute";
  ritual := false;
  _concentration := false;
  magic_school := "Enchantment";
  spell_classes := ["Cleric"; "Paladin"]
|}.

(** Same name and level as [Shield], every other attribute different. *)
Definition ShieldVariant : Spell := {|
  spell_level := 1;
  spell_name := "Shield";
  casting_time := "1 minute";
  casting_range := "Touch";
  components := ["M"];
  materials := "A pearl worth 100 gp";
  duration := "Concentration, up to 1 hour";
  ritual := true;
  _concentration := true;
  magic_school := "Divination";
  spell_classes := []
|}.

Definition eldritch_knight_slots : SlotTable :=
  <[3 := [0; 2; 0; 0]]> (<[4 := [0; 3; 0; 0]]> ∅).

Definition Champion : SubClass.decl := {|
  SubClass.name := "Champion";
  SubClass.doc := Some "The archetypal Champion";
  SubClass.features_by_level := <[3 := [DeclFeature ImprovedCritical]]> ∅;
  SubClass.weapon_proficiencies := [];
  SubClass._proficiencies_text := [];
  SubClass.spellcasting_ability := PyNone;
  SubClass.spell_slots_by_level := None;
  SubClass.spells_known := [];
  SubClass.spells_prepared := []
|}.

Definition EldritchKnight : SubClass.decl := {|
  SubClass.name := "Eldritch Knight";
  SubClass.doc := None;
  SubClass.features_by_level := <[3 := [DeclFeature WeaponBond]]> ∅;
  SubClass.weapon_proficiencies := [];
  SubClass._proficiencies_text := [];
  SubClass.spellcasting_ability := PyStr "intelligence";
  SubClass.spell_slots_by_level := Some eldritch_knight_slots;
  SubClass.spells_known := [Shield];
  SubClass.spells_prepared := []
|}.

Definition Fighter : CharClass.decl := {|
  CharClass.cls_name := "Fighter";
  CharClass.cls_subclass_select_level := 3;
  CharClass.cls_weapon_proficiencies := ["SimpleWeapon"; "MartialWeapon"];
  CharClass.cls__proficiencies_text := ["All armor"; "shields"];
  CharClass.cls_multiclass_weapon_proficiencies := ["SimpleWeapon"; "MartialWeapon"];
  CharClass.cls__multiclass_proficiencies_text := ["light armor"];
  CharClass.cls_spellcasting_ability := PyNone;
  CharClass.cls_spell_slots_by_level := None;
  CharClass.cls_spells_known := [];
  CharClass.cls_spells_prepared := [];
  CharClass.cls_subclasses_available := [Champion; EldritchKnight];
  CharClass.cls_features_by_level :=
    <[1 := [DeclFeature FightingStyle; DeclFeature SecondWind]]>
      (<[2 := [DeclFeature ActionSurge]]> ∅)
|}.

(** A character that holds no feature yet. *)
Definition newcomer : Character := {| has_feature := fun _ => false |}.

(** A character that already holds the Defense fighting style. *)
Definition defender : Character := {|
  has_feature := fun f =>
    match f with
    | FeatureCls name _ _ _ _ _ => String.eqb name "Fighting Style (Defense)"
    | SelectorCls _ _ _ _ => false
    end
|}.

(** A Fighter instance whose own spellcasting attributes hold values that
    are set but falsy, with the Eldritch Knight attached and not yet merged. *)
Definition unmerged_knight : CharClass.t :=
  CharClass.set_subclass
    (CharClass.set_spell_slots_by_level
       (CharClass.set_spellcasting_ability
          (CharClass.set_owner (CharClass.set_level (CharClass.new Fighter) 3)
             (Some newcomer))
          (PyBool false))
       (Some ∅))
    (Some (SubClass.init EldritchKnight (Some newcomer))).

(** A level-3 Fighter instance with the Eldritch Knight table as its own. *)
Definition knight_with_slots : CharClass.t :=
  CharClass.set_spell_slots_by_level
    (CharClass.set_level (CharClass.new Fighter) 3)
    (Some eldritch_knight_slots).

End Sample.

(** Further sample data. *)

Module SampleMore.

(** A spell with no component, no ritual tag, no concentration and no costly
    material. *)
Definition Cantrip : Spell := {|
  spell_level := 0;
  spell_name := "Prestidigitation";
  casting_time := "1 action";
  casting_range := "10 feet";
  components := [];
  materials := "";
  duration := "Up to 1 hour";
  ritual := false;
  _concentration := false;
  magic_school := "Transmutation";
  spell_classes := ["Bard"]
|}.

(** A level-3 Fighter instance with the Champion attached and not merged. *)
Definition unmerged_champion : CharClass.t :=
  CharClass.set_subclass
    (CharClass.set_owner (CharClass.set_level (CharClass.new Sample.Fighter) 3)
       (Some Sample.newcomer))
    (Some (SubClass.init Sample.Champion (Some Sample.newcomer))).

(** A subclass that brings proficiencies, spells and a spell-slot table. *)
Definition WarMage : SubClass.decl := {|
  SubClass.name := "War Mage";
  SubClass.doc := Some "";
  SubClass.features_by_level :=
    <[3 := [DeclFeature Sample.WeaponBond; DeclOther; DeclFeature Sample.FightingStyle]]> ∅;
  SubClass.weapon_proficiencies := ["Staff"];
  SubClass._proficiencies_text := ["wands"];
  SubClass.spellcasting_ability := PyStr "intelligence";
  SubClass.spell_slots_by_level := Some Sample.eldritch_knight_slots;
  SubClass.spells_known := [Sample.Shield];
  SubClass.spells_prepared := [Sample.Bless]
|}.

(** A level-3 Fighter instance with the War Mage attached and not merged. *)
Definition unmerged_war_mage : CharClass.t :=
  CharClass.set_subclass
    (CharClass.set_owner (CharClass.set_level (CharClass.new Sample.Fighter) 3)
       (Some Sample.newcomer))
    (Some (SubClass.init WarMage (Some Sample.newcomer))).

End SampleMore.

(** * Properties *)

Import CharClass.

(** ** Spells *)

Section SpellFacts.

Variable self : Spell.

Lemma Spell_eq_spec (other : Spell) :
  Spell_eq self other = true <->
  spell_name self = spell_name other /\ spell_level self = spell_level other.
Proof.
  unfold Spell_eq. rewrite andb_true_iff, String.eqb_eq, Z.eqb_eq. reflexivity.
Qed.

Lemma concentration_after_set (val : bool) :
  concentration (set_concentration self val) =
  PyStr.contains "concentration" (PyStr.lower (duration self)) || val.
Proof. reflexivity. Qed.

End SpellFacts.

(** C8.  Two spells compare equal exactly when their names and their levels
    agree; no other attribute takes part in the comparison. *)
Theorem Spell_eq_iff_name_and_level (a b : Spell) :
  Spell_eq a b = true <->
  spell_name a = spell_name b /\ spell_level a = spell_level b.
Proof. apply Spell_eq_spec. Qed.

Example Spell_eq_ignores_other_attributes :
  Spell_eq Sample.Shield Sample.ShieldVariant = true /\
  Spell_eq Sample.Shield Sample.Bless = false.
Proof. split; reflexivity. Qed.

(** C7 (amended).  Reading [concentration] after the setter was called with
    [v] gives the disjunction of the duration test and [v]: it is [v] when the
    duration does not mention concentration, and stays true whatever [v] is
    when it does.  With the override at its default [False], the property is
    true exactly when the duration contains "concentration" in any letter
    case. *)
Theorem concentration_is_duration_or_override :
  (forall (s : Spell) (v : bool),
      concentration (set_concentration s v) =
      PyStr.contains "concentration" (PyStr.lower (duration s)) || v) /\
  (forall (s : Spell) (v : bool),
      PyStr.contains "concentration" (PyStr.lower (duration s)) = false ->
      concentration (set_concentration s v) = v) /\
  (forall s : Spell,
      _concentration s = false ->
      concentration s = PyStr.contains "concentration" (PyStr.lower (duration s))).
Proof.
  split; [|split].
  - intros s v. apply concentration_after_set.
  - intros s v Hd. rewrite concentration_after_set, Hd. reflexivity.
  - intros s Hs. unfold concentration. rewrite Hs. apply orb_false_r.
Qed.

Lemma concentration_is_duration_or_override_witness :
  concentration (set_concentration Sample.Shield true) = true /\
  concentration Sample.Bless = true.
Proof.
  destruct concentration_is_duration_or_override as (_ & Hset & Hdefault).
  split.
  - apply (Hset Sample.Shield true). reflexivity.
  - rewrite (Hdefault Sample.Bless); reflexivity.
Defined.

(** C7 as stated fails: Bless lasts "Concentration, up to 1 minute"; after
    the setter was called with [False] the property still reads [True]. *)
Lemma concentration_override_False_ignored :
  PyStr.contains "concentration" (PyStr.lower (duration Sample.Bless)) = true /\
  concentration (set_concentration Sample.Bless false) <> false.
Proof. split; [reflexivity | discriminate]. Qed.

(** ** Selector resolution *)

Section Selector.

Variables (options : gmap string FeatureClass) (source : string).

Lemma select_loop_unmatched owner choices new_feat :
  Forall (fun c => options !! PyStr.lower c = None) choices ->
  select_loop options source owner choices new_feat = Ok new_feat.
Proof.
  induction 1 as [|c rest Hc _ IH]; simpl; [reflexivity|].
  rewrite Hc. exact IH.
Qed.

Lemma select_loop_no_grant o choices new_feat :
  Forall (fun c => grants options o c = false) choices ->
  select_loop options source (Some o) choices new_feat = Ok new_feat.
Proof.
  induction 1 as [|c rest Hc _ IH]; simpl; [reflexivity|].
  unfold grants in Hc. destruct (options !! PyStr.lower c) as [fc|]; [|exact IH].
  apply negb_false_iff in Hc. rewrite Hc. exact IH.
Qed.

(** Scanning [pre ++ post] is scanning [post] from wherever [pre] left the
    variable; with an owner object the scan of [pre] cannot raise. *)
Lemma select_loop_app o pre post new_feat :
  exists mid,
    select_loop options source (Some o) pre new_feat = Ok mid /\
    select_loop options source (Some o) (pre ++ post) new_feat =
    select_loop options source (Some o) post mid.
Proof.
  revert new_feat. induction pre as [|c pre IH]; intros new_feat; simpl.
  - exists new_feat. split; reflexivity.
  - destruct (options !! PyStr.lower c) as [fc|]; [|apply IH].
    destruct (has_feature o fc); apply IH.
Qed.

Lemma select_loop_total o choices new_feat :
  exists f, select_loop options source (Some o) choices new_feat = Ok f.
Proof.
  destruct (select_loop_app o choices [] new_feat) as (mid & H & _). eauto.
Qed.

Lemma select_loop_last_grant o pre c post fc new_feat :
  options !! PyStr.lower c = Some fc ->
  has_feature o fc = false ->
  Forall (fun x => grants options o x = false) post ->
  select_loop options source (Some o) (pre ++ c :: post) new_feat =
  Ok (set_source (FeatureClass_call fc (Some o)) source).
Proof.
  intros Hfc Hnew Hpost.
  destruct (select_loop_app o pre (c :: post) new_feat) as (mid & _ & ->).
  simpl. rewrite Hfc, Hnew. apply select_loop_no_grant. exact Hpost.
Qed.

End Selector.

(** C2 (amended).  Resolution scans every choice string in order and does not
    stop at a match: a choice whose lowercase form is a key of [options] and
    whose option the owner does not hold yet instantiates that option and
    stamps the selector's source on it, replacing whatever an earlier choice
    produced.  So the last such choice determines the outcome: when [c] names
    an option the owner lacks and no choice after [c] does, the result is the
    stamped instance of [c]'s option, whatever precedes [c]. *)
Theorem selector_last_grant_wins
    (name source : string) (doc : option string)
    (options : gmap string FeatureClass) (o : Character)
    (pre post : list string) (c : string) (fc : FeatureClass) :
  options !! PyStr.lower c = Some fc ->
  has_feature o fc = false ->
  Forall (fun x => grants options o x = false) post ->
  FeatureSelector_new name source doc options (Some o) (pre ++ c :: post) =
  Ok (set_source (FeatureClass_call fc (Some o)) source).
Proof. intros. unfold FeatureSelector_new. by apply select_loop_last_grant. Qed.

Lemma selector_last_grant_wins_witness :
  FeatureSelector_new "Fighting Style (Select One)" "Fighter" None
    Sample.fighting_style_options (Some Sample.newcomer)
    (["Archery"] ++ "Defense" :: ["Dueling"]) =
  Ok (set_source (FeatureClass_call Sample.Defense (Some Sample.newcomer)) "Fighter").
Proof.
  apply (selector_last_grant_wins _ _ _ _ Sample.newcomer ["Archery"] ["Dueling"]
           "Defense" Sample.Defense).
  - reflexivity.
  - reflexivity.
  - repeat constructor.
Defined.

(** C2 as stated fails: with the choices "Archery" then "Defense", both
    options of the selector and neither held by the owner, the first match is
    Archery but the feature returned is Defense. *)
Lemma selector_first_match_overwritten :
  exists f,
    FeatureSelector_new "Fighting Style (Select One)" "Fighter" None
      Sample.fighting_style_options (Some Sample.newcomer) ["Archery"; "Defense"]
    = Ok f /\
    feat_name f = "Fighting Style (Defense)" /\
    feat_name (first_match_resolution Sample.fighting_style_options "Fighter"
                 Sample.newcomer ["Archery"; "Defense"]
                 (placeholder "Fighting Style (Select One)" "Fighter" None))
    = "Fighting Style (Archery)".
Proof. eexists. repeat split. Qed.

(** C6.  When no choice string, lowercased, is a key of the selector's
    options, resolution returns (and does not raise, whatever the owner) a
    feature with the selector's name, source and documentation and with
    [needs_implementation] set. *)
Theorem selector_unmatched_placeholder
    (name source : string) (doc : option string)
    (options : gmap string FeatureClass) (owner : PyOwner)
    (feature_choices : list string) :
  Forall (fun c => options !! PyStr.lower c = None) feature_choices ->
  exists f,
    FeatureSelector_new name source doc options owner feature_choices = Ok f /\
    feat_name f = name /\ feat_source f = source /\ feat_doc f = doc /\
    needs_implementation f = true.
Proof.
  intros H. exists (placeholder name source doc). split.
  - unfold FeatureSelector_new. by apply select_loop_unmatched.
  - by repeat split.
Qed.

Lemma selector_unmatched_placeholder_witness :
  exists f,
    FeatureSelector_new "Fighting Style (Select One)" "Fighter" (Some "Select a style")
      Sample.fighting_style_options None ["Dueling"; "Great Weapon Fighting"] = Ok f /\
    feat_name f = "Fighting Style (Select One)" /\ feat_source f = "Fighter" /\
    feat_doc f = Some "Select a style" /\ needs_implementation f = true.
Proof.
  apply selector_unmatched_placeholder. repeat constructor.
Defined.

(** ** Instantiating a declared list of features *)

Section Instantiate.

Variables (o : Character) (feature_choices : list string).

(** With an owner object the loop cannot raise, and it appends to [fs] a list
    that does not depend on [fs]. *)
Lemma instantiate_features_acc declared :
  exists out, forall fs,
    instantiate_features declared (Some o) feature_choices fs = Ok (fs ++ out).
Proof.
  induction declared as [|f rest [out IH]]; simpl.
  - exists []. intros fs. by rewrite app_nil_r.
  - destruct f as [[name source doc needs known prepared | name source doc options]|].
    + eexists. intros fs. rewrite IH, <- app_assoc. reflexivity.
    + destruct (select_loop_total options source o feature_choices
                  (placeholder name source doc)) as [x Hx].
      unfold FeatureSelector_new. rewrite Hx.
      eexists. intros fs. rewrite IH, <- app_assoc. reflexivity.
    + exists out. exact IH.
Qed.

Lemma instantiate_features_returned declared :
  instantiate_features declared (Some o) feature_choices [] =
  Ok (returned (instantiate_features declared (Some o) feature_choices [])).
Proof.
  destruct (instantiate_features_acc declared) as [out H].
  rewrite (H []). reflexivity.
Qed.

End Instantiate.

(** The list the loop returns holds, entry by entry and in order, what each
    declared feature class yields. *)
Lemma instantiate_features_instantiates o feature_choices declared :
  Forall2 (instantiates o feature_choices) (declared_features declared)
    (returned (instantiate_features declared (Some o) feature_choices [])).
Proof.
  cut (exists out,
          (forall fs, instantiate_features declared (Some o) feature_choices fs
                      = Ok (fs ++ out)) /\
          Forall2 (instantiates o feature_choices) (declared_features declared) out).
  { intros (out & H & Hall). by rewrite (H []). }
  induction declared as [|e rest (out & IH & Hall)]; simpl.
  - exists []. split; [intros fs; by rewrite app_nil_r | constructor].
  - destruct e as [[name source doc needs known prepared | name source doc options]|].
    + eexists (_ :: out). split.
      * intros fs. rewrite IH, <- app_assoc. reflexivity.
      * constructor; [reflexivity | exact Hall].
    + destruct (select_loop_total options source o feature_choices
                  (placeholder name source doc)) as [x Hx].
      unfold FeatureSelector_new. rewrite Hx.
      exists (x :: out). split.
      * intros fs. rewrite IH, <- app_assoc. reflexivity.
      * constructor; [exact Hx | exact Hall].
    + exists out. by split.
Qed.

Lemma elem_of_py_range (i a b : Z) : i ∈ py_range a b <-> a <= i < b.
Proof. unfold py_range. rewrite elem_of_seqZ. lia. Qed.

(** ** The per-level loop of [__init__] *)

Section InitFeatures.

Variables (cls : CharClass.decl) (o : Character) (feature_choices : list string).

Lemma init_features_spec levels self :
  owner self = Some o ->
  exists m,
    init_features cls feature_choices levels self = Ok (set_features_by_level self m) /\
    forall i, m !! i =
              if bool_decide (i ∈ levels)
              then Some (returned (instantiate_features
                                     (defaultdict_get (cls_features_by_level cls) i)
                                     (Some o) feature_choices []))
              else features_by_level self !! i.
Proof.
  revert self. induction levels as [|l rest IH]; intros self Ho; cbn [init_features].
  - exists (features_by_level self). split.
    + by destruct self.
    + intros i. case_bool_decide as Hi; [by apply elem_of_nil in Hi | done].
  - rewrite Ho, instantiate_features_returned.
    destruct (IH (set_features_by_level self
                    (<[l:=returned (instantiate_features
                                      (defaultdict_get (cls_features_by_level cls) l)
                                      (Some o) feature_choices [])]>
                       (features_by_level self))) Ho)
      as (m & Hm & Hlook).
    exists m. split; [exact Hm|].
    intros i. rewrite Hlook. cbn [features_by_level set_features_by_level].
    rewrite lookup_insert.
    destruct (decide (l = i)) as [->|Hne], (decide (i ∈ rest)) as [Hin|Hnin].
    + rewrite !bool_decide_eq_true_2; [done | by left | done].
    + rewrite bool_decide_eq_false_2, bool_decide_eq_true_2; [done | by left | done].
    + rewrite !bool_decide_eq_true_2; [done | by right | done].
    + rewrite !bool_decide_eq_false_2; [done | | done].
      intros [?|?]%elem_of_cons; congruence.
Qed.

End InitFeatures.

(** ** Merging a subclass *)

Section SubclassMerge.

Variables (o : Character) (feature_choices : list string) (subcls : SubClass.t).

Let sub (i : Z) : list Feature :=
  returned (instantiate_features
              (defaultdict_get (SubClass.features_by_level (SubClass.class subcls)) i)
              (Some o) feature_choices []).

Lemma extend_features_spec levels self :
  owner self = Some o ->
  NoDup levels ->
  exists m,
    extend_features subcls feature_choices levels self = Ok (set_features_by_level self m) /\
    forall i, m !! i =
              if bool_decide (i ∈ levels)
              then Some (defaultdict_get (features_by_level self) i ++ sub i)
              else features_by_level self !! i.
Proof.
  revert self. induction levels as [|l rest IH]; intros self Ho Hnd; cbn [extend_features].
  - exists (features_by_level self). split.
    + by destruct self.
    + intros i. case_bool_decide as Hi; [by apply elem_of_nil in Hi | done].
  - apply NoDup_cons in Hnd as [Hl Hnd].
    rewrite Ho, instantiate_features_returned. fold (sub l).
    destruct (IH (set_features_by_level self
                    (<[l:=defaultdict_get (features_by_level self) l ++ sub l]>
                       (features_by_level self))) Ho Hnd)
      as (m & Hm & Hlook).
    exists m. split; [exact Hm|].
    intros i. rewrite Hlook. cbn [features_by_level set_features_by_level].
    unfold defaultdict_get. rewrite lookup_insert.
    destruct (decide (l = i)) as [->|Hne], (decide (i ∈ rest)) as [Hin|Hnin].
    + contradiction.
    + rewrite bool_decide_eq_false_2, bool_decide_eq_true_2; [done | by left | done].
    + rewrite !bool_decide_eq_true_2; [done | by right | done].
    + rewrite !bool_decide_eq_false_2; [done | | done].
      intros [?|?]%elem_of_cons; congruence.
Qed.

Lemma apply_subclass_spec self :
  owner self = Some o ->
  subclass self = Some subcls ->
  exists self',
    apply_subclass self feature_choices = Ok self' /\
    level self' = level self /\
    owner self' = owner self /\
    subclass self' = subclass self /\
    subclasses_available self' = subclasses_available self /\
    spellcasting_ability self' =
      py_or (spellcasting_ability self)
            (SubClass.spellcasting_ability (SubClass.class subcls)) /\
    spell_slots_by_level self' =
      table_or (spell_slots_by_level self)
               (SubClass.spell_slots_by_level (SubClass.class subcls)) /\
    forall i, features_by_level self' !! i =
              if bool_decide (i ∈ py_range 1 21)
              then Some (defaultdict_get (features_by_level self) i ++ sub i)
              else features_by_level self !! i.
Proof.
  intros Ho Hsub. unfold apply_subclass. rewrite Hsub.
  destruct (extend_features_spec (py_range 1 21) self Ho) as (m & -> & Hm).
  { apply NoDup_seqZ. }
  eexists. split; [reflexivity|].
  repeat split; first [reflexivity | exact Hsub | exact Hm].
Qed.

End SubclassMerge.

Lemma py_or_not_None (a b : PyValue) : b <> PyNone -> is_not_None (py_or a b) = true.
Proof.
  intros Hb. unfold py_or. destruct a as [|[]|[|c s]]; cbn; try done; by destruct b.
Qed.

(** C5 (amended).  After a subclass merge, [spellcasting_ability] and
    [spell_slots_by_level] keep the class's own value when that value is
    truthy, and take the subclass's value otherwise: an own value that is set
    but falsy ([False], the empty string, an empty table) gives way like
    [None] does.  Whenever the subclass defines [spellcasting_ability],
    [is_spellcaster] is true after the merge, whatever the base class has. *)
Theorem subclass_merge_spellcasting
    (self : CharClass.t) (subcls : SubClass.t) (o : Character)
    (feature_choices : list string) :
  owner self = Some o ->
  subclass self = Some subcls ->
  exists self',
    apply_subclass self feature_choices = Ok self' /\
    spellcasting_ability self' =
      (if truthy (spellcasting_ability self) then spellcasting_ability self
       else SubClass.spellcasting_ability (SubClass.class subcls)) /\
    spell_slots_by_level self' =
      (if table_truthy (spell_slots_by_level self) then spell_slots_by_level self
       else SubClass.spell_slots_by_level (SubClass.class subcls)) /\
    (SubClass.spellcasting_ability (SubClass.class subcls) <> PyNone ->
     is_spellcaster self' = true).
Proof.
  intros Ho Hsub.
  destruct (apply_subclass_spec o feature_choices subcls self Ho Hsub)
    as (self' & Happ & _ & _ & _ & _ & Hab & Hsl & _).
  exists self'. repeat split; try done.
  intros Hdef. unfold is_spellcaster. rewrite Hab. by apply py_or_not_None.
Qed.

Lemma subclass_merge_spellcasting_witness :
  exists self',
    apply_subclass
      (set_subclass (set_owner (new Sample.Fighter) (Some Sample.newcomer))
         (Some (SubClass.init Sample.EldritchKnight (Some Sample.newcomer)))) [] = Ok self' /\
    spellcasting_ability self' = PyStr "intelligence" /\
    spell_slots_by_level self' = Some Sample.eldritch_knight_slots /\
    is_spellcaster self' = true.
Proof.
  destruct (subclass_merge_spellcasting
              (set_subclass (set_owner (new Sample.Fighter) (Some Sample.newcomer))
                 (Some (SubClass.init Sample.EldritchKnight (Some Sample.newcomer))))
              (SubClass.init Sample.EldritchKnight (Some Sample.newcomer))
              Sample.newcomer [] eq_refl eq_refl)
    as (self' & Happ & Hab & Hsl & Hsp).
  exists self'. split; [exact Happ|]. split; [exact Hab|]. split; [exact Hsl|].
  apply Hsp. discriminate.
Defined.

(** C5 as stated fails: the class's own ability is [False] and its own table
    is the empty dict, both set (the class counts as a spellcaster before the
    merge), yet after merging the Eldritch Knight both attributes hold the
    subclass's values. *)
Lemma subclass_merge_replaces_falsy_own_values :
  exists self',
    apply_subclass Sample.unmerged_knight [] = Ok self' /\
    is_spellcaster Sample.unmerged_knight = true /\
    spell_slots_by_level Sample.unmerged_knight <> None /\
    spellcasting_ability self' <> spellcasting_ability Sample.unmerged_knight /\
    spell_slots_by_level self' <> spell_slots_by_level Sample.unmerged_knight.
Proof.
  eexists. split; [vm_compute; reflexivity|].
  split; [reflexivity|]. split; [discriminate|]. split; [discriminate|].
  intros H. apply (f_equal (fun t => match t with Some m => m !! 3 | None => None end)) in H.
  vm_compute in H. discriminate H.
Qed.

(** ** Keyword overrides *)

Lemma apply_params_spec params : forall self,
  Forall (fun p => is_property p = false) params ->
  exists self',
    apply_params self params = Ok self' /\
    level self' = level self /\
    owner self' = owner self /\
    (Forall (fun p => is_features_by_level p = false) params ->
     features_by_level self' = features_by_level self).
Proof.
  induction params as [|p rest IH]; intros self Hset; cbn [apply_params].
  - exists self. repeat split; reflexivity.
  - apply Forall_cons in Hset as [Hp Hrest].
    destruct p; try discriminate Hp; cbn [setattr];
      (edestruct IH as (self' & -> & Hl & Ho & Hf); [exact Hrest|];
       exists self'; split; [reflexivity|]; split; [exact Hl|]; split; [exact Ho|];
       intros [Hq Hno]%Forall_cons; try discriminate Hq; exact (Hf Hno)).
Qed.

Lemma apply_params_unshadowed params : forall self self',
  Forall (fun p => is_method p = false) params ->
  apply_params self params = Ok self' ->
  select_subclass_attribute self' = select_subclass_attribute self /\
  apply_subclass_attribute self' = apply_subclass_attribute self.
Proof.
  induction params as [|p rest IH]; intros self self' Hno; cbn [apply_params].
  - by intros [= <-].
  - apply Forall_cons in Hno as [Hp Hrest].
    destruct p; try discriminate Hp; cbn [setattr]; try discriminate;
      intros Hok; apply (IH _ _ Hrest) in Hok; exact Hok.
Qed.

Lemma plain_keywords (params : list Param) :
  Forall (fun p => is_plain p = true) params ->
  Forall (fun p => is_property p = false) params /\
  Forall (fun p => is_method p = false) params /\
  Forall (fun p => is_features_by_level p = false) params.
Proof.
  intros H. repeat split; (eapply Forall_impl; [exact H|]); intros p Hp; simpl in *;
    unfold is_plain in Hp;
    destruct (is_property p), (is_method p), (is_features_by_level p); done.
Qed.

(** ** Resolving the subclass name *)

Section FindSubclass.

Variable subclass_str : string.

Let matches (sc : SubClass.decl) : bool :=
  PyStr.contains (PyStr.lower subclass_str) (PyStr.lower (SubClass.name sc)).

Lemma find_subclass_first pre sc post :
  Forall (fun x => matches x = false) pre ->
  matches sc = true ->
  find_subclass subclass_str (pre ++ sc :: post) = Some sc.
Proof.
  intros Hpre Hsc. induction Hpre as [|x pre Hx _ IH]; cbn [app find_subclass].
  - fold (matches sc). by rewrite Hsc.
  - fold (matches x). by rewrite Hx.
Qed.

Lemma find_subclass_none candidates :
  Forall (fun x => matches x = false) candidates ->
  find_subclass subclass_str candidates = None.
Proof.
  induction 1 as [|x rest Hx _ IH]; cbn [find_subclass]; [done|].
  fold (matches x). by rewrite Hx.
Qed.

End FindSubclass.

Section SelectSubclass.

Variables (self : CharClass.t) (w : World).

Lemma select_subclass_total subclass_str :
  exists sc w', select_subclass self subclass_str w = Ok (sc, w').
Proof.
  unfold select_subclass. destruct subclass_str as [s|]; [|by eexists _, _].
  destruct (_ || _); [by eexists _, _|].
  destruct (find_subclass _ _); by eexists _, _.
Qed.

Lemma select_subclass_absent subclass_str :
  subclass_str ∈ [Some ""; Some "None"; Some "none"; None] ->
  select_subclass self subclass_str w = Ok (None, w).
Proof.
  intros H. repeat (apply elem_of_cons in H as [->|H]); try reflexivity.
  by apply elem_of_nil in H.
Qed.

Lemma not_absent s :
  Some s ∉ [Some ""; Some "None"; Some "none"; None] ->
  String.eqb s "" || String.eqb s "None" || String.eqb s "none" = false.
Proof.
  intros H. apply not_true_is_false. intros Heq. apply H.
  rewrite !orb_true_iff, !String.eqb_eq in Heq.
  destruct Heq as [[->| ->]| ->]; set_solver.
Qed.

Lemma select_subclass_first s pre sc post :
  Some s ∉ [Some ""; Some "None"; Some "none"; None] ->
  subclasses_available self = pre ++ sc :: post ->
  Forall (fun x => PyStr.contains (PyStr.lower s) (PyStr.lower (SubClass.name x)) = false) pre ->
  PyStr.contains (PyStr.lower s) (PyStr.lower (SubClass.name sc)) = true ->
  select_subclass self (Some s) w = Ok (Some (SubClass.init sc (owner self)), w).
Proof.
  intros Hs Hav Hpre Hsc. unfold select_subclass.
  rewrite (not_absent s Hs), Hav, (find_subclass_first s pre sc post Hpre Hsc).
  reflexivity.
Qed.

Lemma select_subclass_unmatched s :
  Some s ∉ [Some ""; Some "None"; Some "none"; None] ->
  Forall (fun x => PyStr.contains (PyStr.lower s) (PyStr.lower (SubClass.name x)) = false)
         (subclasses_available self) ->
  select_subclass self (Some s) w =
  Ok (None, {| warnings := warnings w ++ [("Could not find subclass " ++ s ++ ".")%string];
               owner_attributes := owner_attributes w |}).
Proof.
  intros Hs Hall. unfold select_subclass.
  rewrite (not_absent s Hs), (find_subclass_none s _ Hall).
  reflexivity.
Qed.

End SelectSubclass.

(** ** Construction *)

Section Init.

Variables (cls : CharClass.decl) (L : Z) (o : Character)
          (subclass_str : option string) (feature_choices : list string)
          (params : list Param) (w : World).

Hypothesis params_settable : Forall (fun p => is_property p = false) params.
Hypothesis params_unshadowed : Forall (fun p => is_method p = false) params.

(** The features the class declares at a level, instantiated. *)
Let base (i : Z) : list Feature :=
  returned (instantiate_features (defaultdict_get (cls_features_by_level cls) i)
              (Some o) feature_choices []).

(** The features a resolved subclass declares at a level, instantiated. *)
Let merged (sc : option SubClass.t) (i : Z) : list Feature :=
  match sc with
  | Some s =>
      returned (instantiate_features
                  (defaultdict_get (SubClass.features_by_level (SubClass.class s)) i)
                  (Some o) feature_choices [])
  | None => []
  end.

(** The world once the class has been bound on the owner. *)
Let bound : World :=
  {| warnings := warnings w; owner_attributes := owner_attributes w ++ [cls_name cls] |}.

(** With an owner object and keywords that can be set and hide no method,
    the constructor returns.  [self0] is the instance on which
    [select_subclass] is called. *)
Lemma init_spec :
  exists self0 sc w' self,
    owner self0 = Some o /\
    select_subclass self0 subclass_str bound = Ok (sc, w') /\
    init cls L (Some o) subclass_str feature_choices params w = Ok (self, w') /\
    level self = L /\ owner self = Some o /\ subclass self = sc /\
    subclasses_available self = subclasses_available self0 /\
    (Forall (fun p => is_features_by_level p = false) params ->
     forall i, features_by_level self !! i =
               if bool_decide (i ∈ py_range 1 21)
               then Some (base i ++ merged sc i) else None).
Proof.
  unfold init.
  set (self1 := set_features_by_level (set_owner (set_level (new cls) L) (Some o)) ∅).
  destruct (init_features_spec cls o feature_choices (py_range 1 21) self1 eq_refl)
    as (m1 & Hinit & Hm1).
  destruct (apply_params_spec params (set_features_by_level self1 m1) params_settable)
    as (self2 & Hpar & Hl2 & Ho2 & Hf2).
  set (self0 := set_spells_prepared
                  (set_spells_known self2 (map Spell_instantiate (cls_spells_known cls)))
                  (map Spell_instantiate (cls_spells_prepared cls))).
  destruct (select_subclass_total self0 bound subclass_str) as (sc & w' & Hsel).
  assert (Hfbl : Forall (fun p => is_features_by_level p = false) params ->
                 forall i, features_by_level self0 !! i =
                           if bool_decide (i ∈ py_range 1 21) then Some (base i) else None).
  { intros Hno i. cbn [self0 features_by_level set_spells_prepared set_spells_known].
    rewrite (Hf2 Hno). cbn [features_by_level set_features_by_level].
    rewrite Hm1. case_bool_decide; [done|]. apply lookup_empty. }
  destruct (apply_params_unshadowed params _ _ params_unshadowed Hpar) as [Hsel2 Happ2].
  cbn in Hsel2, Happ2.
  exists self0, sc, w'.
  unfold M_bind at 1.
  cbn [setattr_owner owner set_owner set_features_by_level set_level new name].
  fold bound. unfold M_bind at 1. unfold M_lift at 1. fold self1. rewrite Hinit.
  unfold M_bind at 1. unfold M_lift at 1. rewrite Hpar.
  unfold M_bind at 1. fold self0. unfold call_select_subclass.
  replace (select_subclass_attribute self0) with (@None PyValue) by (by rewrite <- Hsel2).
  rewrite Hsel.
  cbn [subclass set_subclass].
  destruct sc as [subcls|].
  - destruct (apply_subclass_spec o feature_choices subcls
                (set_subclass self0 (Some subcls)) Ho2 eq_refl)
      as (self & Happ & Hl & Ho & Hs & Hav & _ & _ & Hf).
    exists self. unfold call_apply_subclass.
    replace (apply_subclass_attribute (set_subclass self0 (Some subcls)))
      with (@None PyValue) by (by rewrite <- Happ2).
    unfold M_lift. rewrite Happ.
    split; [exact Ho2|]. split; [reflexivity|]. split; [reflexivity|].
    split; [by rewrite Hl|]. split; [by rewrite Ho|]. split; [exact Hs|].
    split; [exact Hav|].
    intros Hno i. rewrite Hf. cbn [features_by_level set_subclass].
    unfold defaultdict_get. rewrite (Hfbl Hno).
    case_bool_decide; done.
  - exists (set_subclass self0 None). unfold M_ret.
    split; [exact Ho2|]. split; [reflexivity|]. split; [reflexivity|].
    split; [exact Hl2|]. split; [exact Ho2|]. split; [reflexivity|].
    split; [reflexivity|].
    intros Hno i. cbn [features_by_level set_subclass]. rewrite (Hfbl Hno).
    case_bool_decide; [|done]. by rewrite app_nil_r.
Qed.

Hypothesis params_keep_features :
  Forall (fun p => is_features_by_level p = false) params.

(** The per-level lists after construction: what the feature classes the
    class declares yield, followed by what those of the resolved subclass
    yield, at every level from 1 to 20. *)
Lemma init_per_level :
  exists self w' per_class per_subclass,
    init cls L (Some o) subclass_str feature_choices params w = Ok (self, w') /\
    level self = L /\
    (forall i, Forall2 (instantiates o feature_choices)
                 (declared_features (defaultdict_get (cls_features_by_level cls) i))
                 (per_class i)) /\
    (forall i, match subclass self with
               | Some s =>
                   Forall2 (instantiates o feature_choices)
                     (declared_features
                        (defaultdict_get
                           (SubClass.features_by_level (SubClass.class s)) i))
                     (per_subclass i)
               | None => per_subclass i = []
               end) /\
    (forall i, 1 <= i <= 20 ->
               features_by_level self !! i = Some (per_class i ++ per_subclass i)) /\
    (forall i, ~ 1 <= i <= 20 -> features_by_level self !! i = None).
Proof.
  destruct init_spec as (self0 & sc & w' & self & _ & _ & Hinit & Hl & _ & Hsc & _ & Hf).
  specialize (Hf params_keep_features).
  exists self, w', base, (merged sc).
  split; [exact Hinit|]. split; [exact Hl|].
  split; [intros i; apply instantiate_features_instantiates|].
  split; [|split].
  - intros i. rewrite Hsc. destruct sc as [s|]; [|reflexivity].
    apply instantiate_features_instantiates.
  - intros i Hi. rewrite Hf, bool_decide_eq_true_2; [done|].
    apply elem_of_py_range. lia.
  - intros i Hi. rewrite Hf, bool_decide_eq_false_2; [done|].
    rewrite elem_of_py_range. lia.
Qed.

End Init.

(** C10.  Constructing a class with [owner=None] raises, whatever the other
    arguments: line 66 sets the class as an attribute on the owner before
    anything else happens, and [None] takes no attribute.  A construction
    that returns was therefore given an owner object. *)
Theorem init_needs_owner :
  (forall cls L subclass_str feature_choices params w,
      init cls L None subclass_str feature_choices params w = Raise AttributeError) /\
  (forall cls L owner subclass_str feature_choices params w self w',
      init cls L owner subclass_str feature_choices params w = Ok (self, w') ->
      exists o, owner = Some o).
Proof.
  assert (Hnone : forall cls L subclass_str feature_choices params w,
             init cls L None subclass_str feature_choices params w = Raise AttributeError)
    by reflexivity.
  split; [exact Hnone|].
  intros cls L [o|] subclass_str feature_choices params w self w' Hok; [by exists o|].
  rewrite Hnone in Hok. discriminate Hok.
Qed.

Lemma init_needs_owner_witness : exists o, Some Sample.newcomer = Some o.
Proof.
  assert (exists self w',
             init Sample.Fighter 1 (Some Sample.newcomer) None [] [] empty_World
             = Ok (self, w')) as (self & w' & Hok)
    by (eexists _, _; vm_compute; reflexivity).
  exact (proj2 init_needs_owner _ _ _ _ _ _ _ _ _ Hok).
Defined.

(** C4.  Given an owner object and plain keywords (none that names a
    read-only property, a method the constructor calls, or
    [features_by_level]), construction returns, and: when the subclass name
    is "", "None", "none" or absent the subclass is [None] and no warning is
    emitted; otherwise the first candidate of [subclasses_available] whose
    lowercased name contains the lowercased string is instantiated as the
    subclass (an instance of that candidate, bound to the owner) and no
    warning is emitted; when no candidate matches, the subclass is [None] and
    exactly one warning is added. *)
Theorem subclass_resolution
    (cls : CharClass.decl) (L : Z) (o : Character) (subclass_str : option string)
    (feature_choices : list string) (params : list Param) (w : World) :
  Forall (fun p => is_plain p = true) params ->
  exists self w',
    init cls L (Some o) subclass_str feature_choices params w = Ok (self, w') /\
    (subclass_str ∈ [Some ""; Some "None"; Some "none"; None] ->
     subclass self = None /\ warnings w' = warnings w) /\
    (forall s pre sc post,
        subclass_str = Some s ->
        subclass_str ∉ [Some ""; Some "None"; Some "none"; None] ->
        subclasses_available self = pre ++ sc :: post ->
        Forall (fun x => PyStr.contains (PyStr.lower s)
                           (PyStr.lower (SubClass.name x)) = false) pre ->
        PyStr.contains (PyStr.lower s) (PyStr.lower (SubClass.name sc)) = true ->
        (exists inst,
            subclass self = Some inst /\
            SubClass.class inst = sc /\
            SubClass.owner inst = Some o) /\
        warnings w' = warnings w) /\
    (forall s,
        subclass_str = Some s ->
        subclass_str ∉ [Some ""; Some "None"; Some "none"; None] ->
        Forall (fun x => PyStr.contains (PyStr.lower s)
                           (PyStr.lower (SubClass.name x)) = false)
               (subclasses_available self) ->
        subclass self = None /\
        warnings w' = warnings w ++ [("Could not find subclass " ++ s ++ ".")%string]).
Proof.
  intros (Hset & Hmeth & _)%plain_keywords.
  destruct (init_spec cls L o subclass_str feature_choices params w Hset Hmeth)
    as (self0 & sc & w' & self & Ho0 & Hsel & Hinit & _ & _ & Hsc & Hav & _).
  exists self, w'. split; [exact Hinit|]. rewrite Hsc, Hav. clear Hinit Hsc Hav.
  split; [|split].
  - intros Habs. rewrite (select_subclass_absent self0 _ _ Habs) in Hsel.
    by injection Hsel as <- <-.
  - intros s pre d post -> Hs Hav Hpre Hd.
    rewrite (select_subclass_first self0 _ s pre d post Hs Hav Hpre Hd), Ho0 in Hsel.
    injection Hsel as <- <-. split; [|reflexivity].
    eexists. split; [reflexivity|]. by split.
  - intros s -> Hs Hall.
    rewrite (select_subclass_unmatched self0 _ s Hs Hall) in Hsel.
    by injection Hsel as <- <-.
Qed.

Lemma subclass_resolution_witness :
  (exists self w',
      init Sample.Fighter 3 (Some Sample.newcomer) (Some "KNIGHT") []
        [Param_name "Warrior"] empty_World = Ok (self, w') /\
      (exists inst,
          subclass self = Some inst /\
          SubClass.class inst = Sample.EldritchKnight /\
          SubClass.owner inst = Some Sample.newcomer) /\
      warnings w' = []) /\
  (exists self w',
      init Sample.Fighter 3 (Some Sample.newcomer) (Some "nonexistent") [] []
        empty_World = Ok (self, w') /\
      subclass self = None /\
      warnings w' = ["Could not find subclass nonexistent."]).
Proof.
  assert (forall s : string,
             s <> "" -> s <> "None" -> s <> "none" ->
             Some s ∉ [Some ""; Some "None"; Some "none"; None]) as Hgiven.
  { intros s H1 H2 H3 H.
    repeat (apply elem_of_cons in H as [H|H]; [congruence|]).
    by apply elem_of_nil in H. }
  split.
  - destruct (subclass_resolution Sample.Fighter 3 Sample.newcomer (Some "KNIGHT")
                [] [Param_name "Warrior"] empty_World)
      as (self & w' & Hinit & _ & Hfirst & _).
    { repeat constructor. }
    exists self, w'. split; [exact Hinit|].
    apply (Hfirst "KNIGHT" [Sample.Champion] Sample.EldritchKnight [] eq_refl).
    + by apply Hgiven.
    + vm_compute in Hinit. injection Hinit as <- _. reflexivity.
    + repeat constructor.
    + reflexivity.
  - destruct (subclass_resolution Sample.Fighter 3 Sample.newcomer (Some "nonexistent")
                [] [] empty_World (Forall_nil_2 _))
      as (self & w' & Hinit & _ & _ & Hnone).
    exists self, w'. split; [exact Hinit|].
    apply (Hnone "nonexistent" eq_refl).
    + by apply Hgiven.
    + vm_compute in Hinit. injection Hinit as <- _. repeat constructor.
Defined.

Example subclass_resolution_first_match :
  exists self w',
    init Sample.Fighter 3 (Some Sample.newcomer) (Some "KNIGHT") [] [] empty_World
    = Ok (self, w') /\
    option_map SubClass.str (subclass self) = Some "Eldritch Knight" /\
    warnings w' = [].
Proof. eexists _, _. split; [vm_compute; reflexivity|]. split; reflexivity. Qed.

(** Inverting [Forall2 (instantiates _ _)] against a concrete declared
    list: one feature per declared class, each computed. *)
Ltac invert_instantiates H :=
  vm_compute declared_features in H;
  repeat match type of H with
         | Forall2 _ (_ :: _) _ =>
             let f := fresh "f" in
             let Hf := fresh "Hf" in
             apply Forall2_cons_inv_l in H as (f & ? & Hf & H & ->);
             vm_compute in Hf;
             first [injection Hf as <- | subst f]
         | Forall2 _ [] _ => apply Forall2_nil_inv_l in H as ->
         end.




(** ** The [features] property *)

Lemma features_loop_flat_map self levels acc :
  features_loop self levels acc =
  acc ++ flat_map (defaultdict_get (features_by_level self)) levels.
Proof.
  revert acc. induction levels as [|l rest IH]; intros acc; cbn [features_loop flat_map].
  - by rewrite app_nil_r.
  - by rewrite IH, app_assoc.
Qed.

Lemma flat_map_agree {A B : Type} (f g : A -> list B) (l : list A) :
  (forall x, x ∈ l -> f x = g x) -> flat_map f l = flat_map g l.
Proof.
  induction l as [|a l IH]; intros H; cbn [flat_map]; [done|].
  rewrite (H a) by (by left). rewrite IH; [done|].
  intros x Hx. apply H. by right.
Qed.

(** C3.  For a class constructed at a level [L] from 1 to 20 (for an owner
    object, with plain keywords), [features] is the concatenation, for the
    levels 1 to [L] in ascending order, of the per-level lists built by the
    constructor: one feature for each feature class the class declares at the
    level, in declaration order, followed by one for each feature class the
    subclass declares there when a subclass is set. *)
Theorem features_concatenates_levels
    (cls : CharClass.decl) (L : Z) (o : Character) (subclass_str : option string)
    (feature_choices : list string) (params : list Param) (w : World) :
  1 <= L <= 20 ->
  Forall (fun p => is_plain p = true) params ->
  exists self w' per_class per_subclass,
    init cls L (Some o) subclass_str feature_choices params w = Ok (self, w') /\
    level self = L /\
    (forall i, Forall2 (instantiates o feature_choices)
                 (declared_features (defaultdict_get (cls_features_by_level cls) i))
                 (per_class i)) /\
    (forall i, match subclass self with
               | Some s =>
                   Forall2 (instantiates o feature_choices)
                     (declared_features
                        (defaultdict_get
                           (SubClass.features_by_level (SubClass.class s)) i))
                     (per_subclass i)
               | None => per_subclass i = []
               end) /\
    features self = flat_map (fun i => per_class i ++ per_subclass i) (py_range 1 (L + 1)).
Proof.
  intros HL (Hset & Hmeth & Hkeep)%plain_keywords.
  destruct (init_per_level cls L o subclass_str feature_choices params w Hset Hmeth Hkeep)
    as (self & w' & per_class & per_subclass & Hinit & Hl & Hbase & Hsub & Hin & _).
  exists self, w', per_class, per_subclass. repeat (split; [done|]).
  unfold features. rewrite features_loop_flat_map, Hl. cbn [app].
  apply flat_map_agree. intros i Hi%elem_of_py_range.
  unfold defaultdict_get. rewrite Hin by lia. reflexivity.
Qed.

Lemma features_concatenates_levels_witness :
  exists self w',
    init Sample.Fighter 3 (Some Sample.defender) (Some "champion")
      ["Defense"; "Archery"] [] empty_World = Ok (self, w') /\
    map feat_name (features self) =
    ["Fighting Style (Archery)"; "Second Wind"; "Action Surge"; "Improved Critical"].
Proof.
  destruct (features_concatenates_levels Sample.Fighter 3 Sample.defender
              (Some "champion") ["Defense"; "Archery"] [] empty_World)
    as (self & w' & per_class & per_subclass & Hinit & _ & Hclass & Hsub & Hfeat).
  { lia. } { constructor. }
  exists self, w'. split; [exact Hinit|].
  assert (subclass self = Some (SubClass.init Sample.Champion (Some Sample.defender)))
    as Hsc by (vm_compute in Hinit; by injection Hinit as <- _).
  rewrite Hfeat. vm_compute py_range. cbn [flat_map].
  pose proof (Hclass 1) as Hc1. pose proof (Hclass 2) as Hc2.
  pose proof (Hclass 3) as Hc3.
  pose proof (Hsub 1) as Hs1. pose proof (Hsub 2) as Hs2. pose proof (Hsub 3) as Hs3.
  rewrite Hsc in Hs1, Hs2, Hs3.
  invert_instantiates Hc1. invert_instantiates Hc2. invert_instantiates Hc3.
  invert_instantiates Hs1. invert_instantiates Hs2. invert_instantiates Hs3.
  reflexivity.
Defined.

Example features_of_level_3_champion :
  exists self w',
    init Sample.Fighter 3 (Some Sample.defender) (Some "champion")
      ["Defense"; "Archery"] [] empty_World = Ok (self, w') /\
    map feat_name (features self) =
    ["Fighting Style (Archery)"; "Second Wind"; "Action Surge"; "Improved Critical"].
Proof. eexists _, _. split; vm_compute; reflexivity. Qed.

(** ** Spell slots *)

Section SpellSlots.

Context {V : Type}.

Lemma tuple_getitem_nonneg (t : list V) (i : Z) (v : V) :
  0 <= i -> t !! Z.to_nat i = Some v -> tuple_getitem t i = Ok v.
Proof.
  intros Hi Hv. unfold tuple_getitem.
  pose proof (lookup_lt_Some _ _ _ Hv) as Hlt.
  destruct (Z.ltb_spec i 0) as [?|_]; [lia|].
  destruct (Z.leb_spec 0 i) as [_|?]; [|lia].
  destruct (Z.ltb_spec i (Z.of_nat (length t))) as [_|?]; [|lia].
  cbn. by rewrite Hv.
Qed.

Lemma tuple_getitem_negative (t : list V) (i : Z) (v : V) :
  i < 0 -> 0 <= Z.of_nat (length t) + i ->
  t !! Z.to_nat (Z.of_nat (length t) + i) = Some v ->
  tuple_getitem t i = Ok v.
Proof.
  intros Hi Hlo Hv. unfold tuple_getitem.
  destruct (Z.ltb_spec i 0) as [_|?]; [|lia].
  rewrite (Z.add_comm i).
  destruct (Z.leb_spec 0 (Z.of_nat (length t) + i)) as [_|?]; [|lia].
  destruct (Z.ltb_spec (Z.of_nat (length t) + i) (Z.of_nat (length t))) as [_|?]; [|lia].
  cbn. by rewrite Hv.
Qed.

Lemma tuple_getitem_out_of_range (t : list V) (i : Z) :
  Z.of_nat (length t) <= i \/ i < - Z.of_nat (length t) ->
  tuple_getitem t i = Raise IndexError.
Proof.
  intros Hi. unfold tuple_getitem.
  destruct (Z.ltb_spec i 0) as [?|?].
  - destruct (Z.leb_spec 0 (i + Z.of_nat (length t))) as [?|_]; [lia|]. reflexivity.
  - destruct (Z.ltb_spec i (Z.of_nat (length t))) as [?|_]; [lia|].
    by rewrite andb_false_r.
Qed.

End SpellSlots.

(** C9.  [spell_slots(n)] is 0 when the class has no spell-slot table.  With
    a table it is the entry of the row for the class's current level at
    column [n] (a negative [n] counting from the end of the row, as tuple
    indexing does); a missing row raises [KeyError] and a column outside the
    row raises [IndexError], neither caught. *)
Theorem spell_slots_lookup (self : CharClass.t) (n : Z) :
  (spell_slots_by_level self = None -> spell_slots self n = Ok 0) /\
  (forall table,
      spell_slots_by_level self = Some table ->
      (table !! level self = None -> spell_slots self n = Raise KeyError) /\
      (forall row,
          table !! level self = Some row ->
          (forall v, 0 <= n -> row !! Z.to_nat n = Some v -> spell_slots self n = Ok v) /\
          (forall v, n < 0 -> 0 <= Z.of_nat (length row) + n ->
                     row !! Z.to_nat (Z.of_nat (length row) + n) = Some v ->
                     spell_slots self n = Ok v) /\
          (Z.of_nat (length row) <= n \/ n < - Z.of_nat (length row) ->
           spell_slots self n = Raise IndexError))).
Proof.
  unfold spell_slots, dict_getitem. split.
  - intros ->. reflexivity.
  - intros table ->. split.
    + intros ->. reflexivity.
    + intros row ->. split; [|split].
      * intros v. apply tuple_getitem_nonneg.
      * intros v. apply tuple_getitem_negative.
      * apply tuple_getitem_out_of_range.
Qed.

Lemma spell_slots_lookup_witness :
  spell_slots (new Sample.Fighter) 1 = Ok 0 /\
  spell_slots Sample.knight_with_slots 1 = Ok 2 /\
  spell_slots Sample.knight_with_slots 4 = Raise IndexError /\
  spell_slots (set_level Sample.knight_with_slots 5) 1 = Raise KeyError.
Proof.
  split; [|split; [|split]].
  - apply (proj1 (spell_slots_lookup (new Sample.Fighter) 1)). reflexivity.
  - destruct (proj2 (spell_slots_lookup Sample.knight_with_slots 1)
                Sample.eldritch_knight_slots eq_refl) as [_ Hrow].
    destruct (Hrow [0; 2; 0; 0] eq_refl) as (Hnonneg & _ & _).
    apply Hnonneg; [lia | reflexivity].
  - destruct (proj2 (spell_slots_lookup Sample.knight_with_slots 4)
                Sample.eldritch_knight_slots eq_refl) as [_ Hrow].
    destruct (Hrow [0; 2; 0; 0] eq_refl) as (_ & _ & Hout).
    apply Hout. left. cbn. lia.
  - destruct (proj2 (spell_slots_lookup (set_level Sample.knight_with_slots 5) 1)
                Sample.eldritch_knight_slots eq_refl) as [Hmissing _].
    apply Hmissing. reflexivity.
Defined.

(** * Further properties *)




(** ** Equality of spells and of features *)

(** X1.  Equality of spells is an equivalence relation: every spell equals
    itself, [a == b] and [b == a] agree, and equality is transitive. *)
Theorem Spell_eq_equivalence :
  (forall a, Spell_eq a a = true) /\
  (forall a b, Spell_eq a b = Spell_eq b a) /\
  (forall a b c, Spell_eq a b = true -> Spell_eq b c = true -> Spell_eq a c = true).
Proof.
  split; [|split].
  - intros a. apply Spell_eq_spec. by split.
  - intros a b. unfold Spell_eq. by rewrite String.eqb_sym, Z.eqb_sym.
  - intros a b c [Hn Hl]%Spell_eq_spec [Hn' Hl']%Spell_eq_spec.
    apply Spell_eq_spec. split; congruence.
Qed.

Lemma Spell_eq_equivalence_witness :
  Spell_eq Sample.ShieldVariant Sample.ShieldVariant = true.
Proof.
  apply (proj2 (proj2 Spell_eq_equivalence) Sample.ShieldVariant Sample.Shield);
    reflexivity.
Defined.

Lemma Feature_eq_spec (a b : Feature) :
  Feature_eq a b = true <-> feat_name a = feat_name b /\ feat_source a = feat_source b.
Proof. unfold Feature_eq. by rewrite andb_true_iff, !String.eqb_eq. Qed.

(** X2.  Equality of features holds exactly when name and source agree,
    and it is an equivalence relation (reflexive, symmetric, transitive); the
    owner, the spell lists and [needs_implementation] take no part. *)
Theorem Feature_eq_equivalence :
  (forall a b, Feature_eq a b = true <->
               feat_name a = feat_name b /\ feat_source a = feat_source b) /\
  (forall a, Feature_eq a a = true) /\
  (forall a b, Feature_eq a b = Feature_eq b a) /\
  (forall a b c, Feature_eq a b = true -> Feature_eq b c = true -> Feature_eq a c = true).
Proof.
  split; [exact Feature_eq_spec|]. split; [|split].
  - intros a. by apply Feature_eq_spec.
  - intros a b. unfold Feature_eq.
    by rewrite (String.eqb_sym (feat_name a)), (String.eqb_sym (feat_source a)).
  - intros a b c [Hn Hs]%Feature_eq_spec [Hn' Hs']%Feature_eq_spec.
    apply Feature_eq_spec. split; congruence.
Qed.

Lemma Feature_eq_equivalence_witness :
  Feature_eq (FeatureClass_call Sample.SecondWind (Some Sample.newcomer))
             (FeatureClass_call Sample.SecondWind None) = true.
Proof.
  apply (proj2 (proj1 Feature_eq_equivalence _ _)). split; reflexivity.
Defined.

(** ** Rendering a spell *)

Lemma string_length_app (s1 s2 : string) :
  String.length (s1 ++ s2)%string = (String.length s1 + String.length s2)%nat.
Proof. induction s1 as [|c s1 IH]; simpl; [reflexivity | by rewrite IH]. Qed.

Lemma string_app_neq (s t : string) : t <> ""%string -> (s ++ t)%string <> s.
Proof.
  intros Ht Heq. apply (f_equal String.length) in Heq.
  rewrite string_length_app in Heq. destruct t; [done | simpl in Heq; lia].
Qed.

(** X3.  [str(spell)] is the bare name exactly when the spell has no
    component and is neither a ritual, nor a concentration spell, nor one
    with a costly material. *)
Theorem Spell_str_is_name_iff_no_requirement (self : Spell) :
  Spell_str self = spell_name self <->
  components self = [] /\ ritual self = false /\ concentration self = false /\
  special_material self = false.
Proof.
  unfold Spell_str. split.
  - intros H.
    destruct (components self) as [|c cs] eqn:Hc; simpl in H.
    + destruct (ritual self), (concentration self), (special_material self);
        simpl in H; try (by apply string_app_neq in H); done.
    + by apply string_app_neq in H.
  - intros (-> & -> & -> & ->). reflexivity.
Qed.

Lemma Spell_str_is_name_iff_no_requirement_witness :
  Spell_str SampleMore.Cantrip = "Prestidigitation".
Proof.
  apply (proj2 (Spell_str_is_name_iff_no_requirement SampleMore.Cantrip)).
  repeat split.
Defined.

Lemma existsb_eqb_M (l : list string) :
  existsb (String.eqb "M") l = true <-> "M" ∈ l.
Proof.
  rewrite existsb_exists. split.
  - intros (x & Hin & Heq). apply String.eqb_eq in Heq. subst.
    by apply list_elem_of_In.
  - intros Hin. exists "M". split; [by apply list_elem_of_In | apply String.eqb_refl].
Qed.

(** X4.  [component_string] appends the materials text, in parentheses,
    when "M" is among the components, and is the comma-joined components and
    nothing else exactly when "M" is not among them. *)
Theorem component_string_shows_materials_iff_M (self : Spell) :
  ("M" ∈ components self ->
   component_string self =
   (String.concat ", " (components self) ++ " (" ++ materials self ++ ")")%string) /\
  (component_string self = String.concat ", " (components self) <->
   "M" ∉ components self).
Proof.
  unfold component_string.
  destruct (existsb (String.eqb "M") (components self)) eqn:HM.
  - apply existsb_eqb_M in HM. split; [done|]. split.
    + intros H. by apply string_app_neq in H.
    + done.
  - assert ("M" ∉ components self) as Hn.
    { intros Hin%existsb_eqb_M. congruence. }
    split; [done|]. by split.
Qed.

Lemma component_string_shows_materials_iff_M_witness :
  component_string Sample.Bless = "V, S, M (A sprinkling of holy water)" /\
  component_string Sample.Shield = "V, S".
Proof.
  split.
  - apply (proj1 (component_string_shows_materials_iff_M Sample.Bless)).
    do 2 right. left.
  - apply (proj2 (component_string_shows_materials_iff_M Sample.Shield)).
    intros H. repeat (apply elem_of_cons in H as [H|H]; [discriminate H|]).
    by apply elem_of_nil in H.
Defined.

(** ** More on selector resolution *)

Section SelectorInvariant.

Variables (options : gmap string FeatureClass) (source : string) (owner : PyOwner).
Variable P : Feature -> Prop.
Hypothesis P_granted :
  forall fc, P (set_source (FeatureClass_call fc owner) source).

(** Whatever holds of the initial value and of every stamped option holds of
    the feature the scan returns. *)
Lemma select_loop_invariant choices new_feat f :
  P new_feat ->
  select_loop options source owner choices new_feat = Ok f ->
  P f.
Proof.
  revert new_feat. induction choices as [|c rest IH]; intros new_feat Hnew; simpl.
  - intros [= <-]. exact Hnew.
  - destruct (options !! PyStr.lower c) as [fc|]; [|by apply IH].
    destruct owner as [o|]; [|discriminate].
    destruct (has_feature o fc); apply IH; [exact Hnew | apply P_granted].
Qed.

End SelectorInvariant.

(** X6.  Whatever the owner and the choices, a feature returned by
    selector resolution carries the selector's source: the placeholder has
    it, and a chosen option is stamped with it. *)
Theorem selector_result_has_selector_source
    (name source : string) (doc : option string)
    (options : gmap string FeatureClass) (owner : PyOwner)
    (feature_choices : list string) (f : Feature) :
  FeatureSelector_new name source doc options owner feature_choices = Ok f ->
  feat_source f = source.
Proof.
  unfold FeatureSelector_new.
  apply (select_loop_invariant options source owner (fun f => feat_source f = source));
    reflexivity.
Qed.

Lemma selector_result_has_selector_source_witness :
  feat_source (set_source (FeatureClass_call Sample.Archery (Some Sample.defender))
                 "Fighter") = "Fighter".
Proof.
  apply (selector_result_has_selector_source "Fighting Style (Select One)" "Fighter"
           None Sample.fighting_style_options (Some Sample.defender)
           ["Defense"; "Archery"]).
  reflexivity.
Defined.

(** X7.  With [owner=None], selector resolution raises [AttributeError]
    as soon as one choice names an option (the owner is asked
    [has_feature]); when no choice names an option it returns the
    placeholder. *)
Theorem selector_without_owner_raises_iff_matched
    (name source : string) (doc : option string)
    (options : gmap string FeatureClass) (feature_choices : list string) :
  (Exists (fun c => is_Some (options !! PyStr.lower c)) feature_choices ->
   FeatureSelector_new name source doc options None feature_choices
   = Raise AttributeError) /\
  (~ Exists (fun c => is_Some (options !! PyStr.lower c)) feature_choices ->
   FeatureSelector_new name source doc options None feature_choices
   = Ok (placeholder name source doc)).
Proof.
  unfold FeatureSelector_new. generalize (placeholder name source doc) as new_feat.
  induction feature_choices as [|c rest IH]; intros new_feat; simpl.
  - split; [by intros ?%Exists_nil | done].
  - destruct (options !! PyStr.lower c) as [fc|] eqn:Hc.
    + split; [done|]. intros Hn. exfalso. apply Hn. left. by rewrite Hc.
    + destruct (IH new_feat) as [IH1 IH2]. split.
      * intros [Hhd|Htl]%Exists_cons; [|by apply IH1].
        rewrite Hc in Hhd. by destruct Hhd.
      * intros Hn. apply IH2. intros Htl. apply Hn. by right.
Qed.

Lemma selector_without_owner_raises_iff_matched_witness :
  FeatureSelector_new "Fighting Style (Select One)" "Fighter" None
    Sample.fighting_style_options None ["Dueling"; "ARCHERY"] = Raise AttributeError.
Proof.
  apply (proj1 (selector_without_owner_raises_iff_matched _ _ _ _ _)).
  right. left. by eexists.
Defined.

Lemma lower_ascii_idempotent (c : ascii) :
  PyStr.lower_ascii (PyStr.lower_ascii c) = PyStr.lower_ascii c.
Proof. destruct c as [[] [] [] [] [] [] [] []]; reflexivity. Qed.

Lemma lower_idempotent (s : string) : PyStr.lower (PyStr.lower s) = PyStr.lower s.
Proof.
  induction s as [|c s IH]; simpl; [reflexivity|].
  by rewrite lower_ascii_idempotent, IH.
Qed.

(** X8.  Selector resolution ignores the letter case of the choices:
    lowercasing every choice string beforehand changes nothing, for any
    owner. *)
Theorem selector_ignores_letter_case
    (name source : string) (doc : option string)
    (options : gmap string FeatureClass) (owner : PyOwner)
    (feature_choices : list string) :
  FeatureSelector_new name source doc options owner (map PyStr.lower feature_choices) =
  FeatureSelector_new name source doc options owner feature_choices.
Proof.
  unfold FeatureSelector_new. generalize (placeholder name source doc) as new_feat.
  induction feature_choices as [|c rest IH]; intros new_feat; simpl; [reflexivity|].
  rewrite lower_idempotent.
  destruct (options !! PyStr.lower c) as [fc|]; [|apply IH].
  destruct owner as [o|]; [|reflexivity].
  destruct (has_feature o fc); apply IH.
Qed.

(** X9.  When every choice that names an option names one the owner
    already holds, resolution returns the placeholder (flagged
    [needs_implementation]) and raises nothing: already-held options are
    skipped silently. *)
Theorem selector_all_held_placeholder
    (name source : string) (doc : option string)
    (options : gmap string FeatureClass) (o : Character)
    (feature_choices : list string) :
  Forall (fun c => forall fc, options !! PyStr.lower c = Some fc ->
                              has_feature o fc = true) feature_choices ->
  FeatureSelector_new name source doc options (Some o) feature_choices =
  Ok (placeholder name source doc).
Proof.
  intros H. unfold FeatureSelector_new. apply select_loop_no_grant.
  eapply Forall_impl; [exact H|]. intros c Hc. unfold grants.
  simpl in Hc. destruct (options !! PyStr.lower c) as [fc|]; [|reflexivity].
  by rewrite (Hc fc eq_refl).
Qed.

Lemma selector_all_held_placeholder_witness :
  FeatureSelector_new "Fighting Style (Select One)" "Fighter" None
    Sample.fighting_style_options (Some Sample.defender) ["Defense"; "Dueling"] =
  Ok (placeholder "Fighting Style (Select One)" "Fighter" None).
Proof.
  apply selector_all_held_placeholder.
  repeat constructor; intros fc Hfc; vm_compute in Hfc;
    by first [discriminate Hfc | injection Hfc as <-].
Defined.

(** ** More on instantiating declared lists *)

Section InstantiateMore.

Variables (o : Character) (feature_choices : list string).

Let bound_or_flagged (f : Feature) : Prop :=
  feat_owner f = Some o \/ (feat_owner f = None /\ needs_implementation f = true).

Lemma FeatureClass_call_bound_or_flagged fc source :
  bound_or_flagged (set_source (FeatureClass_call fc (Some o)) source).
Proof. destruct fc; [by left | by right]. Qed.

Lemma instantiate_features_out declared :
  exists out,
    (forall fs, instantiate_features declared (Some o) feature_choices fs = Ok (fs ++ out)) /\
    length out = length (List.filter is_feature_entry declared) /\
    Forall bound_or_flagged out.
Proof.
  induction declared as [|e rest (out & IH & Hlen & Hall)]; simpl.
  - exists []. split; [intros fs; by rewrite app_nil_r | by split].
  - destruct e as [[name source doc needs known prepared | name source doc options]|].
    + eexists (_ :: out). split; [|split].
      * intros fs. rewrite IH, <- app_assoc. reflexivity.
      * simpl. by rewrite Hlen.
      * constructor; [by left | exact Hall].
    + destruct (select_loop_total options source o feature_choices
                  (placeholder name source doc)) as [x Hx].
      unfold FeatureSelector_new. rewrite Hx.
      exists (x :: out). split; [|split].
      * intros fs. rewrite IH, <- app_assoc. reflexivity.
      * simpl. by rewrite Hlen.
      * constructor; [|exact Hall].
        refine (select_loop_invariant options source (Some o) bound_or_flagged _ _ _ _ _ Hx).
        -- intros fc. apply FeatureClass_call_bound_or_flagged.
        -- by right.
    + exists out. by repeat split.
Qed.

End InstantiateMore.

(** X10.  With an owner object, instantiating a declared list returns
    exactly one feature per entry that is a feature class (a selector
    counts once, resolved or not); entries that are not feature classes are
    skipped. *)
Theorem instantiate_features_one_per_feature_class
    (declared : list ClassEntry) (o : Character) (feature_choices : list string) :
  exists fs,
    instantiate_features declared (Some o) feature_choices [] = Ok fs /\
    length fs = length (List.filter is_feature_entry declared).
Proof.
  destruct (instantiate_features_out o feature_choices declared) as (out & H & Hlen & _).
  exists out. split; [apply (H []) | exact Hlen].
Qed.

(** X11.  Every feature instantiated for an owner object is either bound
    to that owner, or bound to no owner and then flagged
    [needs_implementation] (the placeholder of an unresolved selector). *)
Theorem instantiated_feature_bound_or_flagged
    (declared : list ClassEntry) (o : Character) (feature_choices : list string)
    (fs : list Feature) (f : Feature) :
  instantiate_features declared (Some o) feature_choices [] = Ok fs ->
  f ∈ fs ->
  feat_owner f = Some o \/ (feat_owner f = None /\ needs_implementation f = true).
Proof.
  destruct (instantiate_features_out o feature_choices declared) as (out & H & _ & Hall).
  rewrite (H []). intros [= <-] Hin.
  by apply (proj1 (Forall_forall _ _) Hall).
Qed.

Lemma instantiated_feature_bound_or_flagged_witness :
  feat_owner (placeholder "Fighting Style (Select One)" "Fighter" (Some "Select a style"))
  = Some Sample.newcomer \/
  (feat_owner (placeholder "Fighting Style (Select One)" "Fighter" (Some "Select a style"))
   = None /\
   needs_implementation
     (placeholder "Fighting Style (Select One)" "Fighter" (Some "Select a style")) = true).
Proof.
  eapply (instantiated_feature_bound_or_flagged
            [DeclFeature Sample.FightingStyle; DeclOther; DeclFeature Sample.SecondWind]
            Sample.newcomer ["Dueling"]).
  - reflexivity.
  - left.
Defined.



(** ** When construction fails *)

Lemma setattr_settable self p :
  is_property p = false -> exists self', setattr self p = Ok self'.
Proof. destruct p; try discriminate; intros _; by eexists. Qed.

Lemma apply_params_cases params : forall self,
  Forall (fun p => is_property p = false) params \/
  apply_params self params = Raise AttributeError.
Proof.
  induction params as [|p rest IH]; intros self; [by left|].
  cbn [apply_params]. destruct (is_property p) eqn:Hp.
  - right. by destruct p.
  - destruct (setattr_settable self p Hp) as [self' ->].
    destruct (IH self') as [Hall|Hraise]; [left | by right].
    by constructor.
Qed.

Lemma settable_excludes_property (params : list Param) :
  Forall (fun p => is_property p = false) params ->
  Exists (fun p => is_property p = true) params -> False.
Proof.
  intros Hall Hex. induction Hex as [p rest Hp|p rest _ IH].
  - apply Forall_cons in Hall as [Hq _]. congruence.
  - apply Forall_cons in Hall as [_ Hrest]. by apply IH.
Qed.

Lemma apply_params_property params : forall self,
  Exists (fun p => is_property p = true) params ->
  apply_params self params = Raise AttributeError.
Proof.
  intros self Hex. destruct (apply_params_cases params self) as [Hall|]; [|done].
  exfalso. by apply (settable_excludes_property params).
Qed.

Lemma apply_params_shadows_select_subclass params : forall self self',
  is_Some (select_subclass_attribute self) \/
  Exists (fun p => is_select_subclass p = true) params ->
  apply_params self params = Ok self' ->
  is_Some (select_subclass_attribute self').
Proof.
  induction params as [|p rest IH]; intros self self' Hshadow; cbn [apply_params].
  - intros [= <-]. destruct Hshadow as [?|H]; [done | by apply Exists_nil in H].
  - destruct (setattr self p) as [self1|e] eqn:Hp; [|discriminate].
    apply IH. destruct Hshadow as [Hsome|[Hhd|Htl]%Exists_cons].
    + left. destruct p; try discriminate Hp; injection Hp as <-;
        first [exact Hsome | by eexists].
    + left. destruct p; try discriminate Hhd. injection Hp as <-. by eexists.
    + by right.
Qed.

Lemma apply_params_keeps_select_subclass params : forall self self',
  Forall (fun p => is_select_subclass p = false) params ->
  apply_params self params = Ok self' ->
  select_subclass_attribute self' = select_subclass_attribute self.
Proof.
  induction params as [|p rest IH]; intros self self' Hno; cbn [apply_params].
  - by intros [= <-].
  - apply Forall_cons in Hno as [Hp Hrest].
    destruct p; try discriminate Hp; cbn [setattr]; try discriminate;
      intros Hok; apply (IH _ _ Hrest) in Hok; exact Hok.
Qed.

Section InitKeywords.

Variables (cls : CharClass.decl) (L : Z) (o : Character)
          (subclass_str : option string) (feature_choices : list string)
          (params : list Param) (w : World).

(** The constructor with an owner object, up to the keyword loop: the rest
    runs on the instance the loop leaves. *)
Lemma init_until_params :
  exists self1,
    select_subclass_attribute self1 = None /\
    init cls L (Some o) subclass_str feature_choices params w =
    match apply_params self1 params with
    | Raise e => Raise e
    | Ok self2 =>
        let self0 :=
          set_spells_prepared
            (set_spells_known self2 (map Spell_instantiate (cls_spells_known cls)))
            (map Spell_instantiate (cls_spells_prepared cls)) in
        match call_select_subclass self0 subclass_str
                {| warnings := warnings w;
                   owner_attributes := owner_attributes w ++ [cls_name cls] |} with
        | Raise e => Raise e
        | Ok (sc, w') =>
            match sc with
            | Some _ => call_apply_subclass (set_subclass self0 sc) feature_choices w'
            | None => Ok (set_subclass self0 None, w')
            end
        end
    end.
Proof.
  set (self1 := set_features_by_level (set_owner (set_level (new cls) L) (Some o)) ∅).
  destruct (init_features_spec cls o feature_choices (py_range 1 21) self1 eq_refl)
    as (m1 & Hinit & _).
  exists (set_features_by_level self1 m1). split; [reflexivity|].
  unfold init. unfold M_bind at 1.
  cbn [setattr_owner owner set_owner set_features_by_level set_level new name].
  unfold M_bind at 1. unfold M_lift at 1. fold self1. rewrite Hinit.
  unfold M_bind at 1. unfold M_lift at 1.
  destruct (apply_params _ params) as [self2|e]; [|reflexivity].
  unfold M_bind. cbn zeta.
  destruct (call_select_subclass _ _ _) as [[[subcls|] w']|e]; reflexivity.
Qed.

Lemma init_property_raises :
  Exists (fun p => is_property p = true) params ->
  init cls L (Some o) subclass_str feature_choices params w = Raise AttributeError.
Proof.
  intros Hex. destruct init_until_params as (self1 & _ & ->).
  by rewrite (apply_params_property params _ Hex).
Qed.

Lemma init_shadowed_select_subclass_raises :
  Forall (fun p => is_property p = false) params ->
  Exists (fun p => is_select_subclass p = true) params ->
  init cls L (Some o) subclass_str feature_choices params w = Raise TypeError.
Proof.
  intros Hset Hex. destruct init_until_params as (self1 & _ & ->).
  destruct (apply_params_spec params self1 Hset) as (self2 & Hpar & _).
  rewrite Hpar. cbn zeta. unfold call_select_subclass.
  cbn [select_subclass_attribute set_spells_prepared set_spells_known].
  destruct (apply_params_shadows_select_subclass params self1 self2 (or_intror Hex) Hpar)
    as [v ->].
  reflexivity.
Qed.

Lemma init_unused_apply_subclass_returns :
  Forall (fun p => is_property p = false) params ->
  Forall (fun p => is_select_subclass p = false) params ->
  subclass_str ∈ [Some ""; Some "None"; Some "none"; None] ->
  exists self w',
    init cls L (Some o) subclass_str feature_choices params w = Ok (self, w') /\
    subclass self = None.
Proof.
  intros Hset Hno Habs. destruct init_until_params as (self1 & Hnone & ->).
  destruct (apply_params_spec params self1 Hset) as (self2 & Hpar & _).
  rewrite Hpar. cbn zeta. unfold call_select_subclass.
  cbn [select_subclass_attribute set_spells_prepared set_spells_known].
  rewrite (apply_params_keeps_select_subclass params self1 self2 Hno Hpar), Hnone.
  rewrite (select_subclass_absent _ _ _ Habs).
  by eexists _, _.
Qed.

End InitKeywords.

(** X12.  How keywords make construction for an owner object fail: a keyword
    naming a read-only property ([features], [is_spellcaster]) raises
    [AttributeError]; with no such keyword, a [select_subclass] keyword bound
    to a value that is not callable raises [TypeError] when line 84 calls it;
    an [apply_subclass] keyword alone does no harm when the subclass name is
    "", "None", "none" or absent, because line 86 is then never reached. *)
Theorem init_keyword_errors
    (cls : CharClass.decl) (L : Z) (o : Character) (subclass_str : option string)
    (feature_choices : list string) (params : list Param) (w : World) :
  (Exists (fun p => is_property p = true) params ->
   init cls L (Some o) subclass_str feature_choices params w = Raise AttributeError) /\
  (Forall (fun p => is_property p = false) params ->
   Exists (fun p => is_select_subclass p = true) params ->
   init cls L (Some o) subclass_str feature_choices params w = Raise TypeError) /\
  (Forall (fun p => is_property p = false) params ->
   Forall (fun p => is_select_subclass p = false) params ->
   subclass_str ∈ [Some ""; Some "None"; Some "none"; None] ->
   exists self w',
     init cls L (Some o) subclass_str feature_choices params w = Ok (self, w') /\
     subclass self = None).
Proof.
  split; [apply init_property_raises|].
  split; [apply init_shadowed_select_subclass_raises|].
  apply init_unused_apply_subclass_returns.
Qed.

Lemma init_keyword_errors_witness :
  init Sample.Fighter 3 (Some Sample.newcomer) (Some "champion") []
    [Param_name "Warrior"; Param_features] empty_World = Raise AttributeError /\
  init Sample.Fighter 3 (Some Sample.newcomer) (Some "champion") []
    [Param_select_subclass PyNone; Param_name "Warrior"] empty_World = Raise TypeError /\
  (exists self w',
      init Sample.Fighter 3 (Some Sample.newcomer) (Some "none") []
        [Param_apply_subclass PyNone] empty_World = Ok (self, w') /\
      subclass self = None).
Proof.
  split; [|split].
  - apply (proj1 (init_keyword_errors _ _ _ _ _ _ _)). right. by left.
  - apply (proj1 (proj2 (init_keyword_errors _ _ _ _ _ _ _))).
    + repeat constructor.
    + by left.
  - apply (proj2 (proj2 (init_keyword_errors _ _ _ _ _ _ _))).
    + repeat constructor.
    + repeat constructor.
    + right. right. by left.
Defined.

Example init_shadowed_apply_subclass_raises :
  init Sample.Fighter 3 (Some Sample.newcomer) (Some "champion") []
    [Param_apply_subclass (PyStr "later")] empty_World = Raise TypeError.
Proof. reflexivity. Qed.

(** ** The constructed level *)

Section LevelCommutes.

Variable L : Z.

Let relevel (self : CharClass.t) : CharClass.t := set_level self L.

Lemma setattr_level self p :
  setattr (set_level self L) p = on_ok relevel (setattr self p).
Proof. by destruct p. Qed.

Lemma apply_params_level params : forall self,
  apply_params (set_level self L) params = on_ok relevel (apply_params self params).
Proof.
  induction params as [|p rest IH]; intros self; cbn [apply_params]; [reflexivity|].
  rewrite setattr_level. destruct (setattr self p) as [self'|e]; cbn [on_ok]; [|reflexivity].
  apply IH.
Qed.

Lemma init_features_level cls feature_choices levels : forall self,
  init_features cls feature_choices levels (set_level self L) =
  on_ok relevel (init_features cls feature_choices levels self).
Proof.
  induction levels as [|i rest IH]; intros self; cbn [init_features]; [reflexivity|].
  cbn [owner set_level features_by_level].
  destruct (instantiate_features _ _ _ _) as [fs|e]; [|reflexivity].
  etransitivity;
    [|apply (IH (set_features_by_level self (<[i:=fs]> (features_by_level self))))].
  reflexivity.
Qed.

Lemma extend_features_level subcls feature_choices levels : forall self,
  extend_features subcls feature_choices levels (set_level self L) =
  on_ok relevel (extend_features subcls feature_choices levels self).
Proof.
  induction levels as [|i rest IH]; intros self; cbn [extend_features]; [reflexivity|].
  cbn [owner set_level features_by_level].
  destruct (instantiate_features _ _ _ _) as [fs|e]; [|reflexivity].
  etransitivity;
    [|apply (IH (set_features_by_level self
                   (<[i:=defaultdict_get (features_by_level self) i ++ fs]>
                      (features_by_level self))))].
  reflexivity.
Qed.

Lemma apply_subclass_level feature_choices self :
  apply_subclass (set_level self L) feature_choices =
  on_ok relevel (apply_subclass self feature_choices).
Proof.
  unfold apply_subclass. cbn [subclass set_level].
  destruct (subclass self) as [subcls|]; [|reflexivity].
  rewrite extend_features_level.
  destruct (extend_features subcls feature_choices (py_range 1 21) self) as [self'|e];
    reflexivity.
Qed.

Lemma call_apply_subclass_level feature_choices self w0 :
  call_apply_subclass (set_level self L) feature_choices w0 =
  on_ok (fun r => (relevel (fst r), snd r)) (call_apply_subclass self feature_choices w0).
Proof.
  unfold call_apply_subclass. cbn [apply_subclass_attribute set_level].
  destruct (apply_subclass_attribute self); [reflexivity|].
  unfold M_lift. rewrite apply_subclass_level.
  by destruct (apply_subclass self feature_choices).
Qed.

Lemma init_level cls L0 owner subclass_str feature_choices params w :
  init cls L owner subclass_str feature_choices params w =
  on_ok (fun r => (relevel (fst r), snd r))
        (init cls L0 owner subclass_str feature_choices params w).
Proof.
  unfold init, M_bind, M_lift, M_ret, setattr_owner.
  cbn [CharClass.owner set_owner set_level set_features_by_level new name].
  destruct owner as [o|]; [|reflexivity].
  change (set_features_by_level (set_owner (set_level (new cls) L) (Some o)) ∅)
    with (set_level (set_features_by_level (set_owner (set_level (new cls) L0) (Some o)) ∅) L).
  rewrite init_features_level.
  destruct (init_features cls feature_choices (py_range 1 21) _) as [self1|e];
    cbn [on_ok]; [|reflexivity].
  unfold relevel at 1. rewrite apply_params_level.
  destruct (apply_params self1 params) as [self2|e]; cbn [on_ok]; [|reflexivity].
  set (self0 := set_spells_prepared (set_spells_known self2 _) _).
  change (set_spells_prepared (set_spells_known (relevel self2) _) _)
    with (set_level self0 L).
  change (call_select_subclass (set_level self0 L) subclass_str)
    with (call_select_subclass self0 subclass_str).
  destruct (call_select_subclass self0 subclass_str _) as [[sc w']|e]; [|reflexivity].
  cbn [subclass set_subclass set_level].
  destruct sc as [subcls|]; [|reflexivity].
  change (set_subclass (set_level self0 L) (Some subcls))
    with (set_level (set_subclass self0 (Some subcls)) L).
  rewrite call_apply_subclass_level.
  by destruct (call_apply_subclass _ feature_choices w').
Qed.

End LevelCommutes.

(** X13.  The level passed to the constructor only sets the [level]
    attribute: constructing with level [L] gives the outcome of constructing
    with any other level [L0], with [level] set to [L] (same exception, same
    warnings, same attributes otherwise). *)
Theorem init_level_only_sets_level
    (cls : CharClass.decl) (L L0 : Z) (owner : PyOwner) (subclass_str : option string)
    (feature_choices : list string) (params : list Param) (w : World) :
  init cls L owner subclass_str feature_choices params w =
  on_ok (fun r => (set_level (fst r) L, snd r))
        (init cls L0 owner subclass_str feature_choices params w).
Proof. apply init_level. Qed.

(** ** More on [features] *)

Lemma features_flat_map self :
  features self =
  flat_map (defaultdict_get (features_by_level self)) (py_range 1 (level self + 1)).
Proof. unfold features. by rewrite features_loop_flat_map. Qed.

Lemma py_range_split (a b c : Z) :
  a <= b <= c -> py_range a c = py_range a b ++ py_range b c.
Proof.
  intros H. unfold py_range.
  replace (c - a) with ((b - a) + (c - b)) by lia.
  rewrite seqZ_app by lia. do 2 f_equal; lia.
Qed.

Lemma features_prefix self (L L' : Z) :
  L <= L' -> features (set_level self L) `prefix_of` features (set_level self L').
Proof.
  intros HL. rewrite !features_flat_map. cbn [level set_level features_by_level].
  destruct (decide (0 <= L)) as [Hpos|Hneg].
  - rewrite (py_range_split 1 (L + 1) (L' + 1)) by lia.
    rewrite flat_map_app. by eexists.
  - unfold py_range at 1. rewrite seqZ_nil by lia. apply prefix_nil.
Qed.

(** X14.  [features] grows with the level: for the same per-level lists
    the features at a level are a prefix of the features at any higher level,
    and there are none at level 0 or below. *)
Theorem features_grow_with_level (self : CharClass.t) (L L' : Z) :
  (L <= L' -> features (set_level self L) `prefix_of` features (set_level self L')) /\
  (L <= 0 -> features (set_level self L) = []).
Proof.
  split; [apply features_prefix|].
  intros HL. rewrite features_flat_map. cbn [level set_level].
  unfold py_range. by rewrite seqZ_nil by lia.
Qed.

Lemma features_grow_with_level_witness :
  exists self w',
    init Sample.Fighter 3 (Some Sample.newcomer) (Some "champion") ["Archery"] []
      empty_World = Ok (self, w') /\
    map feat_name (features (set_level self 1))
    = ["Fighting Style (Archery)"; "Second Wind"] /\
    map feat_name (features (set_level self 3))
    = ["Fighting Style (Archery)"; "Second Wind"; "Action Surge"; "Improved Critical"] /\
    features (set_level self 1) `prefix_of` features (set_level self 3) /\
    features (set_level self 0) = [].
Proof.
  assert (exists self w',
             init Sample.Fighter 3 (Some Sample.newcomer) (Some "champion") ["Archery"]
               [] empty_World = Ok (self, w')) as (self & w' & Hinit)
    by (eexists _, _; vm_compute; reflexivity).
  exists self, w'. split; [exact Hinit|].
  split; [vm_compute in Hinit; injection Hinit as <- _; reflexivity|].
  split; [vm_compute in Hinit; injection Hinit as <- _; reflexivity|].
  split.
  - apply (proj1 (features_grow_with_level self 1 3)). lia.
  - apply (proj2 (features_grow_with_level self 0 0)). lia.
Defined.



Lemma flat_map_nil_on {A B : Type} (l : list A) (f : A -> list B) :
  (forall x, x ∈ l -> f x = []) -> flat_map f l = [].
Proof.
  induction l as [|a l IH]; intros H; cbn [flat_map]; [done|].
  rewrite (H a) by (by left). apply IH. intros x Hx. apply H. by right.
Qed.

(** X16.  Levels above 20 add no feature: a class constructed for an owner
    object with level 20 or more and plain keywords has the features it
    would have at level 20. *)
Theorem features_stop_at_level_20
    (cls : CharClass.decl) (L : Z) (o : Character) (subclass_str : option string)
    (feature_choices : list string) (params : list Param) (w : World) :
  20 <= L ->
  Forall (fun p => is_plain p = true) params ->
  exists self w',
    init cls L (Some o) subclass_str feature_choices params w = Ok (self, w') /\
    features self = features (set_level self 20).
Proof.
  intros HL (Hset & Hmeth & Hkeep)%plain_keywords.
  destruct (init_per_level cls L o subclass_str feature_choices params w Hset Hmeth Hkeep)
    as (self & w' & _ & _ & Hinit & Hl & _ & _ & _ & Hout).
  exists self, w'. split; [exact Hinit|].
  rewrite !features_flat_map. cbn [level set_level features_by_level]. rewrite Hl.
  rewrite (py_range_split 1 21 (L + 1)) by lia. rewrite flat_map_app.
  replace (flat_map _ (py_range 21 (L + 1))) with (@nil Feature); [by rewrite app_nil_r|].
  symmetry. apply (flat_map_nil_on (py_range 21 (L + 1))).
  intros i Hi%elem_of_py_range. unfold defaultdict_get. rewrite Hout by lia. reflexivity.
Qed.

Lemma features_stop_at_level_20_witness :
  exists self w',
    init Sample.Fighter 25 (Some Sample.newcomer) (Some "champion") ["Archery"] []
      empty_World = Ok (self, w') /\
    features self = features (set_level self 20) /\
    length (features self) = 4%nat.
Proof.
  destruct (features_stop_at_level_20 Sample.Fighter 25 Sample.newcomer
              (Some "champion") ["Archery"] [] empty_World)
    as (self & w' & Hinit & Hfeat).
  { lia. } { constructor. }
  exists self, w'. split; [exact Hinit|]. split; [exact Hfeat|].
  vm_compute in Hinit. injection Hinit as <- _. reflexivity.
Defined.

(** ** More on merging a subclass *)

Section MergeAttributes.

Variables (o : Character) (feature_choices : list string) (subcls : SubClass.t).

Let sc : SubClass.decl := SubClass.class subcls.

Lemma apply_subclass_attributes self :
  owner self = Some o ->
  subclass self = Some subcls ->
  exists self',
    apply_subclass self feature_choices = Ok self' /\
    weapon_proficiencies self' =
      weapon_proficiencies self ++ SubClass.weapon_proficiencies sc /\
    _proficiencies_text self' =
      _proficiencies_text self ++ SubClass._proficiencies_text sc /\
    multiclass_weapon_proficiencies self' =
      multiclass_weapon_proficiencies self ++ SubClass.weapon_proficiencies sc /\
    _multiclass_proficiencies_text self' =
      _multiclass_proficiencies_text self ++ SubClass._proficiencies_text sc /\
    spells_known self' =
      spells_known self ++ map Spell_instantiate (SubClass.spells_known sc) /\
    spells_prepared self' =
      spells_prepared self ++ map Spell_instantiate (SubClass.spells_prepared sc).
Proof.
  intros Ho Hsub. unfold apply_subclass. rewrite Hsub.
  destruct (extend_features_spec o feature_choices subcls (py_range 1 21) self Ho)
    as (m & -> & _).
  { apply NoDup_seqZ. }
  eexists. split; [reflexivity|]. repeat split.
Qed.

End MergeAttributes.

(** X17.  Merging a subclass appends, and keeps the order: the class's
    own weapon proficiencies and proficiency texts come first and the
    subclass's follow; the multiclass proficiencies receive the subclass's
    weapon proficiencies and texts too; the subclass's known and prepared
    spells are appended to the class's. *)
Theorem subclass_merge_appends_proficiencies_and_spells
    (self : CharClass.t) (subcls : SubClass.t) (o : Character)
    (feature_choices : list string) :
  owner self = Some o ->
  subclass self = Some subcls ->
  exists self',
    apply_subclass self feature_choices = Ok self' /\
    weapon_proficiencies self' =
      weapon_proficiencies self ++ SubClass.weapon_proficiencies (SubClass.class subcls) /\
    _proficiencies_text self' =
      _proficiencies_text self ++ SubClass._proficiencies_text (SubClass.class subcls) /\
    multiclass_weapon_proficiencies self' =
      multiclass_weapon_proficiencies self
        ++ SubClass.weapon_proficiencies (SubClass.class subcls) /\
    _multiclass_proficiencies_text self' =
      _multiclass_proficiencies_text self
        ++ SubClass._proficiencies_text (SubClass.class subcls) /\
    spells_known self' =
      spells_known self
        ++ map Spell_instantiate (SubClass.spells_known (SubClass.class subcls)) /\
    spells_prepared self' =
      spells_prepared self
        ++ map Spell_instantiate (SubClass.spells_prepared (SubClass.class subcls)).
Proof. apply apply_subclass_attributes. Qed.

Lemma subclass_merge_appends_proficiencies_and_spells_witness :
  exists self',
    apply_subclass SampleMore.unmerged_war_mage [] = Ok self' /\
    weapon_proficiencies self' = ["SimpleWeapon"; "MartialWeapon"; "Staff"] /\
    _proficiencies_text self' = ["All armor"; "shields"; "wands"] /\
    multiclass_weapon_proficiencies self' = ["SimpleWeapon"; "MartialWeapon"; "Staff"] /\
    _multiclass_proficiencies_text self' = ["light armor"; "wands"] /\
    spells_known self' = [Sample.Shield] /\
    spells_prepared self' = [Sample.Bless].
Proof.
  apply (subclass_merge_appends_proficiencies_and_spells SampleMore.unmerged_war_mage
           (SubClass.init SampleMore.WarMage (Some Sample.newcomer)) Sample.newcomer []);
    reflexivity.
Defined.

Lemma py_or_absorb (a b : PyValue) : py_or (py_or a b) b = py_or a b.
Proof. unfold py_or. destruct (truthy a) eqn:Ha; [by rewrite Ha|]. by destruct (truthy b). Qed.

(** X18.  [apply_subclass] is not idempotent: applied a second time it
    appends the subclass's features of every level, its proficiencies and its
    spells once more, while [spellcasting_ability] stays as the first merge
    left it. *)
Theorem subclass_merge_twice_duplicates
    (self : CharClass.t) (subcls : SubClass.t) (o : Character)
    (feature_choices : list string) :
  owner self = Some o ->
  subclass self = Some subcls ->
  exists once twice per_subclass,
    apply_subclass self feature_choices = Ok once /\
    apply_subclass once feature_choices = Ok twice /\
    (forall i, instantiate_features
                 (defaultdict_get (SubClass.features_by_level (SubClass.class subcls)) i)
                 (Some o) feature_choices [] = Ok (per_subclass i)) /\
    (forall i, 1 <= i <= 20 ->
               features_by_level twice !! i =
               Some ((defaultdict_get (features_by_level self) i ++ per_subclass i)
                       ++ per_subclass i)) /\
    weapon_proficiencies twice =
      (weapon_proficiencies self ++ SubClass.weapon_proficiencies (SubClass.class subcls))
        ++ SubClass.weapon_proficiencies (SubClass.class subcls) /\
    spells_known twice =
      (spells_known self
         ++ map Spell_instantiate (SubClass.spells_known (SubClass.class subcls)))
        ++ map Spell_instantiate (SubClass.spells_known (SubClass.class subcls)) /\
    spellcasting_ability twice = spellcasting_ability once.
Proof.
  intros Ho Hsub.
  destruct (apply_subclass_spec o feature_choices subcls self Ho Hsub)
    as (once & Hone & _ & Ho1 & Hs1 & _ & Hab1 & _ & Hf1).
  destruct (apply_subclass_attributes o feature_choices subcls self Ho Hsub)
    as (once' & Hone' & Hwp1 & _ & _ & _ & Hsk1 & _).
  rewrite Hone in Hone'. injection Hone' as <-.
  rewrite Ho in Ho1. rewrite Hsub in Hs1.
  destruct (apply_subclass_spec o feature_choices subcls once Ho1 Hs1)
    as (twice & Htwo & _ & _ & _ & _ & Hab2 & _ & Hf2).
  destruct (apply_subclass_attributes o feature_choices subcls once Ho1 Hs1)
    as (twice' & Htwo' & Hwp2 & _ & _ & _ & Hsk2 & _).
  rewrite Htwo in Htwo'. injection Htwo' as <-.
  exists once, twice. eexists.
  split; [exact Hone|]. split; [exact Htwo|].
  split; [intros i; apply instantiate_features_returned|].
  split; [|split; [|split]].
  - intros i Hi. assert (i ∈ py_range 1 21) as Hin by (apply elem_of_py_range; lia).
    rewrite Hf2, bool_decide_eq_true_2 by done.
    unfold defaultdict_get at 1. rewrite Hf1, bool_decide_eq_true_2 by done.
    reflexivity.
  - by rewrite Hwp2, Hwp1.
  - by rewrite Hsk2, Hsk1.
  - rewrite Hab2, Hab1. apply py_or_absorb.
Qed.

Lemma subclass_merge_twice_duplicates_witness :
  exists once twice,
    apply_subclass SampleMore.unmerged_champion [] = Ok once /\
    apply_subclass once [] = Ok twice /\
    map feat_name (defaultdict_get (features_by_level twice) 3)
    = ["Improved Critical"; "Improved Critical"].
Proof.
  destruct (subclass_merge_twice_duplicates SampleMore.unmerged_champion
              (SubClass.init Sample.Champion (Some Sample.newcomer)) Sample.newcomer []
              eq_refl eq_refl)
    as (once & twice & per_subclass & Hone & Htwo & Hper & Hf & _).
  exists once, twice. split; [exact Hone|]. split; [exact Htwo|].
  unfold defaultdict_get. rewrite (Hf 3) by lia.
  specialize (Hper 3). vm_compute in Hper. injection Hper as <-.
  reflexivity.
Defined.

(** X19.  When the class has no spell-slot table of its own, after the
    merge [spell_slots] answers from the subclass's table at the class's
    level (0 if the subclass has none either, [KeyError] if the table has no
    row for the level). *)
Theorem spell_slots_after_merge
    (self : CharClass.t) (subcls : SubClass.t) (o : Character)
    (feature_choices : list string) :
  owner self = Some o ->
  subclass self = Some subcls ->
  spell_slots_by_level self = None ->
  exists self',
    apply_subclass self feature_choices = Ok self' /\
    forall n,
      spell_slots self' n =
      match SubClass.spell_slots_by_level (SubClass.class subcls) with
      | None => Ok 0
      | Some table =>
          match table !! level self with
          | Some row => tuple_getitem row n
          | None => Raise KeyError
          end
      end.
Proof.
  intros Ho Hsub Hown.
  destruct (apply_subclass_spec o feature_choices subcls self Ho Hsub)
    as (self' & Happ & Hl & _ & _ & _ & _ & Hsl & _).
  exists self'. split; [exact Happ|]. intros n.
  unfold spell_slots, dict_getitem. rewrite Hsl, Hown, Hl. cbn [table_or table_truthy].
  destruct (SubClass.spell_slots_by_level (SubClass.class subcls)) as [table|];
    [|reflexivity].
  by destruct (table !! level self).
Qed.

Lemma spell_slots_after_merge_witness :
  exists self',
    apply_subclass SampleMore.unmerged_war_mage [] = Ok self' /\
    spell_slots self' 1 = Ok 2.
Proof.
  destruct (spell_slots_after_merge SampleMore.unmerged_war_mage
              (SubClass.init SampleMore.WarMage (Some Sample.newcomer)) Sample.newcomer []
              eq_refl eq_refl eq_refl)
    as (self' & Happ & Hslots).
  exists self'. split; [exact Happ|]. rewrite Hslots. reflexivity.
Defined.



(** ** The stages of construction *)

Section InitStages.

Variables (cls : CharClass.decl) (L : Z) (o : Character)
          (subclass_str : option string) (feature_choices : list string)
          (params : list Param) (w : World).

Hypothesis params_settable : Forall (fun p => is_property p = false) params.
Hypothesis params_unshadowed : Forall (fun p => is_method p = false) params.


End InitStages.

Lemma select_subclass_world self subclass_str w0 sc w' :
  select_subclass self subclass_str w0 = Ok (sc, w') ->
  owner_attributes w' = owner_attributes w0 /\
  (warnings w' = warnings w0 \/
   (sc = None /\
    exists s, subclass_str = Some s /\
              warnings w' = warnings w0 ++ [("Could not find subclass " ++ s ++ ".")%string])).
Proof.
  unfold select_subclass. destruct subclass_str as [s|].
  - destruct (_ || _).
    + intros [= <- <-]. split; [done | by left].
    + destruct (find_subclass _ _).
      * intros [= <- <-]. split; [done | by left].
      * intros [= <- <-]. split; [done|]. right. split; [done|]. by exists s.
  - intros [= <- <-]. split; [done | by left].
Qed.



(** X21.  A construction that returns has bound exactly one attribute on
    the owner, named by the class's declared name (even when a [name]
    keyword renames the instance), and has emitted at most one warning, and
    that only when a subclass name was given and no subclass resulted. *)
Theorem init_binds_class_name_and_warns_at_most_once
    (cls : CharClass.decl) (L : Z) (owner : PyOwner) (subclass_str : option string)
    (feature_choices : list string) (params : list Param) (w w' : World)
    (self : CharClass.t) :
  init cls L owner subclass_str feature_choices params w = Ok (self, w') ->
  owner_attributes w' = owner_attributes w ++ [cls_name cls] /\
  (warnings w' = warnings w \/
   (subclass self = None /\
    exists s, subclass_str = Some s /\
              warnings w' = warnings w ++ [("Could not find subclass " ++ s ++ ".")%string])).
Proof.
  intros Hok. destruct owner as [o|]; [|discriminate Hok].
  destruct (init_until_params cls L o subclass_str feature_choices params w)
    as (self1 & _ & Hinit).
  rewrite Hinit in Hok. clear Hinit.
  destruct (apply_params self1 params) as [self2|e]; [|discriminate Hok].
  cbn zeta in Hok. unfold call_select_subclass in Hok.
  destruct (select_subclass_attribute _); [discriminate Hok|].
  destruct (select_subclass _ subclass_str _) as [[sc w1]|e] eqn:Hsel; [|discriminate Hok].
  apply select_subclass_world in Hsel as [Hattr Hwarn]. cbn in Hattr, Hwarn.
  destruct sc as [subcls|].
  - unfold call_apply_subclass, M_lift, M_raise in Hok.
    destruct (apply_subclass_attribute _); [discriminate Hok|].
    destruct (apply_subclass _ feature_choices) as [self'|e]; [|discriminate].
    injection Hok as <- <-. split; [exact Hattr|].
    destruct Hwarn as [Hw|[Hnone _]]; [by left | discriminate].
  - injection Hok as <- <-. split; [exact Hattr|].
    destruct Hwarn as [Hw|[_ Hw]]; [by left | right; by split].
Qed.

Lemma init_binds_class_name_and_warns_at_most_once_witness :
  owner_attributes
    {| warnings := ["Could not find subclass wizard."]; owner_attributes := ["Fighter"] |}
  = owner_attributes empty_World ++ [cls_name Sample.Fighter].
Proof.
  assert (exists self,
             init Sample.Fighter 3 (Some Sample.newcomer) (Some "wizard") []
               [Param_name "Warrior"] empty_World
             = Ok (self, {| warnings := ["Could not find subclass wizard."];
                            owner_attributes := ["Fighter"] |})) as [self Hok]
    by (eexists; vm_compute; reflexivity).
  exact (proj1 (init_binds_class_name_and_warns_at_most_once _ _ _ _ _ _ _ _ _ Hok)).
Defined.
